(** * protobuf_json: JSON <-> protocol-buffer message conversion

    A shallow embedding of [protobuf_json.py] (json2proto, proto2json and
    their per-field converters) together with the properties its
    specification states about it.

    Layout:
    - [Py]: the Python values the module manipulates, the exceptions it
      can raise, and the few container protocols it relies on
      ([in], [[]], iteration, dict assignment);
    - [Descriptor]: the FieldDescriptor constants and the message
      runtime (instances, reading and writing their slots);
    - [Runtime]: the collaborators that live outside the module
      (simplejson, the builtin constructors stored in TYPE_MAP, the type
      checks of the message runtime, the iteration order of a dict);
    - the module's functions, in source order;
    - the properties. *)

From Stdlib Require Import ZArith String Ascii List Bool Lia.
From Stdlib Require Import Floats.SpecFloat.
From stdpp Require Import gmap strings list fin_maps.

Local Open Scope string_scope.
Local Open Scope Z_scope.
Local Open Scope list_scope.

#[local] Set Warnings "-register-all".

(** ** Python values *)

(** The objects that flow through the module: what [simplejson.loads]
    returns (None, bool, int, float, text, list, dict), message instances
    (a descriptor and the slots that have been assigned), and any other
    object reachable as a class attribute ([VObj]: methods, descriptors,
    nested classes).

    A dict value lists its items in the order in which the dict is
    iterated; a float is an IEEE-754 binary64 datum. *)
Inductive value : Type :=
  | VNone
  | VBool (b : bool)
  | VInt (n : Z)
  | VFloat (x : spec_float)
  | VStr (s : string)
  | VList (l : list value)
  | VDict (d : list (string * value))
  | VMsg (D : list field) (slots : gmap string value)
  | VObj (what : string)

(** A FieldDescriptor. [values_by_number] is [enum_type.values_by_number]
    reduced to number |-> symbol name; [message_type] is the field list of
    the embedded message type (used when [type] is TYPE_MESSAGE). *)
with field : Type :=
  | Field (name : string) (type : Z) (label : Z)
          (has_default_value : bool) (default_value : value)
          (values_by_number : gmap Z string)
          (message_type : list field).

Definition name (f : field) : string :=
  match f with Field n _ _ _ _ _ _ => n end.
Definition type (f : field) : Z :=
  match f with Field _ t _ _ _ _ _ => t end.
Definition label (f : field) : Z :=
  match f with Field _ _ l _ _ _ _ => l end.
Definition has_default_value (f : field) : bool :=
  match f with Field _ _ _ h _ _ _ => h end.
Definition default_value (f : field) : value :=
  match f with Field _ _ _ _ d _ _ => d end.
Definition values_by_number (f : field) : gmap Z string :=
  match f with Field _ _ _ _ _ e _ => e end.
Definition message_type (f : field) : list field :=
  match f with Field _ _ _ _ _ _ m => m end.

(** ** Exceptions *)

(** Builtin exceptions that the interpreter raises on the module's behalf.
    [NotModelled] marks a conversion the reference runtime below does not
    cover; the module's functions never produce it themselves. *)
Inductive builtin_exn : Type :=
  | TypeError | ValueError | OverflowError | KeyError | AttributeError
  | RuntimeError | NotModelled.

(** The module's own exception classes carry the datum that their message
    formats: the field name, the field type number, the offending value. *)
Inductive exn : Type :=
  | JsonDataMissingError (field_name : string)
  | UnsupportedFieldTypeError (field_type : Z)
  | ProtoEnumValueNotFoundError (v : value)
  | PyExc (e : builtin_exn).

Inductive result (A : Type) : Type :=
  | Ok (a : A)
  | Raise (e : exn).
Arguments Ok {A} a.
Arguments Raise {A} e.

#[global] Instance result_ret : MRet result := @Ok.
#[global] Instance result_bind : MBind result := fun A B k m =>
  match m with Ok a => k a | Raise e => Raise e end.

(** A list comprehension [[g x for x in xs]]: elements are converted left
    to right and the first exception aborts the whole comprehension. *)
Fixpoint comprehension {A B} (g : A -> result B) (xs : list A)
  : result (list B) :=
  match xs with
  | [] => Ok []
  | x :: xs' => y ← g x; ys ← comprehension g xs'; Ok (y :: ys)
  end.

(** A [for] loop threading a state through its body. *)
Fixpoint for_each {A S} (body : S -> A -> result S) (xs : list A) (s : S)
  : result S :=
  match xs with
  | [] => Ok s
  | x :: xs' => s' ← body s x; for_each body xs' s'
  end.

(** ** Container protocols *)

Module Py.

Fixpoint dict_get (d : list (string * value)) (k : string) : option value :=
  match d with
  | [] => None
  | (k', v) :: d' => if decide (k' = k) then Some v else dict_get d' k
  end.

(** A dict under construction is represented by its history: its items
    in the order in which their keys were first assigned. [d[k] = v]
    replaces the value of a key that is there and records a new key last.
    The history is not the order in which the dict is iterated: that
    order is the interpreter's (see [items] below). *)
Fixpoint setitem (d : list (string * value)) (k : string) (v : value)
  : list (string * value) :=
  match d with
  | [] => [(k, v)]
  | (k', v') :: d' =>
      if decide (k' = k) then (k', v) :: d' else (k', v') :: setitem d' k v
  end.

(** The items of [d] listed along [order]: first the items whose keys
    [order] names, in that order, then whatever [order] does not name. *)
Definition arrange (order : list string) (d : list (string * value))
  : list (string * value) :=
  flat_map (fun k => match dict_get d k with
                     | Some v => [(k, v)]
                     | None => []
                     end) (remove_dups order)
  ++ filter (fun kv => fst kv ∉ order) d.

Definition keys (d : list (string * value)) : list string := map fst d.

Definition chars (s : string) : list value :=
  map (fun c => VStr (String c EmptyString)) (list_ascii_of_string s).

(** [for val in v]. *)
Definition iter (v : value) : result (list value) :=
  match v with
  | VList l => Ok l
  | VStr s => Ok (chars s)
  | VDict d => Ok (map VStr (keys d))
  | _ => Raise (PyExc TypeError)
  end.

Definition is_str (k : string) (v : value) : bool :=
  match v with VStr s => bool_decide (s = k) | _ => false end.

(** [k in v] for a text key [k]. *)
Definition contains (v : value) (k : string) : result bool :=
  match v with
  | VDict d => Ok (bool_decide (is_Some (dict_get d k)))
  | VList l => Ok (existsb (is_str k) l)
  | VStr s => Ok (bool_decide (is_Some (String.index 0 k s)))
  | _ => Raise (PyExc TypeError)
  end.

(** [v[k]] for a text key [k]. *)
Definition getitem (v : value) (k : string) : result value :=
  match v with
  | VDict d =>
      match dict_get d k with
      | Some x => Ok x
      | None => Raise (PyExc KeyError)
      end
  | _ => Raise (PyExc TypeError)
  end.

(** The integer a float denotes, when it denotes one. *)
Definition float_integer (x : spec_float) : option Z :=
  match x with
  | S754_zero _ => Some 0
  | S754_finite s m e =>
      let mag :=
        if 0 <=? e then Some (Z.pos m * 2 ^ e)
        else if Z.pos m mod 2 ^ (- e) =? 0 then Some (Z.pos m / 2 ^ (- e))
        else None in
      (fun z => if s then - z else z) <$> mag
  | _ => None
  end.

(** [table.get(v, None)] on a dict keyed by integers: numbers hash and
    compare by numeric value, lists, dicts and messages are unhashable,
    anything else is simply not a key. *)
Definition int_dict_get {A} (table : gmap Z A) (v : value)
  : result (option A) :=
  match v with
  | VInt n => Ok (table !! n)
  | VBool b => Ok (table !! Z.b2z b)
  | VFloat x => Ok (float_integer x ≫= fun n => table !! n)
  | VList _ | VDict _ | VMsg _ _ => Raise (PyExc TypeError)
  | VNone | VStr _ | VObj _ => Ok None
  end.

(** ['%d' % v]: succeeds on numbers only. *)
Definition format_d (v : value) : result unit :=
  match v with
  | VInt _ | VBool _ => Ok tt
  | VFloat (S754_zero _) | VFloat (S754_finite _ _ _) => Ok tt
  | VFloat S754_nan => Raise (PyExc ValueError)
  | VFloat (S754_infinity _) => Raise (PyExc OverflowError)
  | _ => Raise (PyExc TypeError)
  end.

End Py.

(** ** Field descriptors and the message runtime *)

Module Descriptor.

(** [google.protobuf.descriptor.FieldDescriptor] constants. *)
Definition TYPE_DOUBLE : Z := 1.
Definition TYPE_FLOAT : Z := 2.
Definition TYPE_INT64 : Z := 3.
Definition TYPE_UINT64 : Z := 4.
Definition TYPE_INT32 : Z := 5.
Definition TYPE_BOOL : Z := 8.
Definition TYPE_STRING : Z := 9.
Definition TYPE_GROUP : Z := 10.
Definition TYPE_MESSAGE : Z := 11.
Definition TYPE_BYTES : Z := 12.
Definition TYPE_UINT32 : Z := 13.
Definition TYPE_ENUM : Z := 14.

Definition LABEL_OPTIONAL : Z := 1.
Definition LABEL_REQUIRED : Z := 2.
Definition LABEL_REPEATED : Z := 3.

(** A generated message class: its field descriptors in declaration
    order and the rest of its namespace (enum symbols of nested enums,
    field-number constants, methods, nested classes). *)
Record message_class : Type := MessageClass
  { fields : list field;
    namespace : gmap string value }.

(** [getattr(message_class, s)]. Every message class has a [DESCRIPTOR]
    attribute; the others come from its namespace. *)
Definition class_getattr (mc : message_class) (s : string) : option value :=
  if decide (s = "DESCRIPTOR") then Some (VObj "Descriptor")
  else namespace mc !! s.

(** A message instance: the descriptor of its type and the slots that
    have been assigned so far. *)
Record message : Type := Message
  { DESCRIPTOR : list field;
    slots : gmap string value }.

Definition instance (m : message) : value := VMsg (DESCRIPTOR m) (slots m).

(** [message_class()]. *)
Definition new (mc : message_class) : message :=
  {| DESCRIPTOR := fields mc; slots := ∅ |}.

(** What reading a field that was never assigned returns: an empty
    container for a repeated field, a default instance for an embedded
    message, the descriptor's [default_value] for a scalar. *)
Definition unset_value (f : field) : value :=
  if label f =? LABEL_REPEATED then VList []
  else if (type f =? TYPE_MESSAGE) || (type f =? TYPE_GROUP)
       then VMsg (message_type f) ∅
  else default_value f.

(** [getattr(obj, field.name)] on a message whose slots are [s]. *)
Definition getattr (s : gmap string value) (f : field) : value :=
  default (unset_value f) (s !! name f).

(** The slot named by [f] takes the value [v]. *)
Definition write (m : message) (f : field) (v : value) : message :=
  {| DESCRIPTOR := DESCRIPTOR m; slots := <[name f := v]> (slots m) |}.

(** [label_obj = getattr(obj, field.name)] followed by the lookup of
    [label_obj.extend]: only a container has that method. *)
Definition container (m : message) (f : field) : result (list value) :=
  match getattr (slots m) f with
  | VList l => Ok l
  | _ => Raise (PyExc AttributeError)
  end.

End Descriptor.
Import Descriptor.

(** ** Collaborators outside the module *)

(** The names TYPE_MAP maps to: the builtin constructors. *)
Inductive pytype : Type := Tbool | Tfloat | Tint | Tunicode.

(** What the module calls but does not define: [simplejson.loads],
    [simplejson.dumps] over some representation of JSON text, the
    application of a builtin constructor to a value, and the setters and
    containers of the message runtime. None of them knows the module's
    exception classes: they return or throw a builtin exception. *)
Inductive outcome (A : Type) : Type :=
  | Returns (a : A)
  | Throws (e : builtin_exn).
Arguments Returns {A} a.
Arguments Throws {A} e.

Definition lift {A} (o : outcome A) : result A :=
  match o with
  | Returns a => Ok a
  | Throws e => Raise (PyExc e)
  end.

(** The message runtime checks every value it is given for a field, by
    the field's type: [store f v] is what assigning [v] to [f], or
    appending [v] to the repeated field [f], stores, or the exception
    (TypeError, ValueError) the check raises.

    The interpreter decides in which order a dict is iterated:
    [dict_order ks] is that order for a dict whose keys were first
    assigned in the order [ks] (for Python 2, the order of the hash
    table's slots). *)
Class Runtime : Type :=
  { json_text : Type;
    loads : json_text -> outcome value;
    dumps : value -> outcome json_text;
    call : pytype -> value -> outcome value;
    store : field -> value -> outcome value;
    dict_order : list string -> list string }.

(** The items of a dict with history [d], in the order in which the dict
    is iterated. *)
Definition items {R : Runtime} (d : list (string * value))
  : list (string * value) :=
  Py.arrange (dict_order (Py.keys d)) d.

(** ** protobuf_json.py *)

Definition TYPE_MAP : gmap Z pytype :=
  list_to_map
    [ (TYPE_BOOL, Tbool);
      (TYPE_FLOAT, Tfloat);
      (TYPE_INT32, Tint);
      (TYPE_INT64, Tint);
      (TYPE_UINT32, Tint);
      (TYPE_UINT64, Tint);
      (TYPE_STRING, Tunicode);
      (TYPE_ENUM, Tint) ].

Section Functions.
Context {R : Runtime}.

Definition _convert_json_value (f : field) (v : value) (mc : message_class)
  : result value :=
  if type f =? TYPE_ENUM then
    match v with
    | VStr s =>
        match class_getattr mc s with
        | None => Raise (ProtoEnumValueNotFoundError v)
        | Some a => Ok a
        end
    | _ => Raise (PyExc TypeError)
    end
  else
    match TYPE_MAP !! type f with
    | Some ty => lift (call ty v)
    | None => Raise (UnsupportedFieldTypeError (type f))
    end.

(** [setattr(proto_obj, field.name, v)]: the runtime checks [v] and the
    slot takes what it stores. *)
Definition setattr (m : message) (f : field) (v : value) : result message :=
  stored ← lift (store f v);
  Ok (write m f stored).

(** [label_obj.extend(vs)], [label_obj] being the container of [f]: the
    runtime checks every element, then appends what it stores. *)
Definition extend (m : message) (f : field) (label_obj vs : list value)
  : result message :=
  stored ← comprehension (fun v => lift (store f v)) vs;
  Ok (write m f (VList (label_obj ++ stored))).

(** The body of the loop of [json2proto], for one field. *)
Definition json2proto_field (mc : message_class) (json_data : value)
    (proto_obj : message) (f : field) : result message :=
  present ← Py.contains json_data (name f);
  if (present : bool) then
    v ← Py.getitem json_data (name f);
    if label f =? LABEL_REPEATED then
      label_obj ← container proto_obj f;
      vals ← Py.iter v;
      converted ← comprehension (fun val => _convert_json_value f val mc) vals;
      extend proto_obj f label_obj converted
    else
      c ← _convert_json_value f v mc;
      setattr proto_obj f c
  else if has_default_value f then
    setattr proto_obj f (default_value f)
  else if label f =? LABEL_REQUIRED then
    Raise (JsonDataMissingError (name f))
  else Ok proto_obj.

Definition json2proto (json_str : json_text) (mc : message_class)
  : result message :=
  json_data ← lift (loads json_str);
  for_each (json2proto_field mc json_data) (fields mc) (new mc).

(** [_convert_proto_value] calls [proto2json_dict] for an embedded
    message and is called by it; [encode] stands for that callee. *)
Definition _convert_proto_value (encode : value -> result value)
    (f : field) (v : value) (message_obj : value) : result value :=
  if type f =? TYPE_ENUM then
    tmp_field ← Py.int_dict_get (values_by_number f) v;
    match tmp_field with
    | None => _ ← Py.format_d v; Raise (ProtoEnumValueNotFoundError v)
    | Some symbol => Ok (VStr symbol)
    end
  else if bool_decide (is_Some (TYPE_MAP !! type f)) then Ok v
  else if type f =? TYPE_MESSAGE then encode v
  else Raise (UnsupportedFieldTypeError (type f)).

(** The body of the loop of [proto2json_dict], for one field. *)
Definition proto2json_field (encode : value -> result value)
    (D : list field) (s : gmap string value)
    (json_data : list (string * value)) (f : field)
  : result (list (string * value)) :=
  let v := getattr s f in
  if label f =? LABEL_REPEATED then
    vals ← Py.iter v;
    converted ←
      comprehension (fun val => _convert_proto_value encode f val (VMsg D s))
                    vals;
    Ok (Py.setitem json_data (name f) (VList converted))
  else
    c ← _convert_proto_value encode f v (VMsg D s);
    Ok (Py.setitem json_data (name f) c).

(** [depth] bounds the nesting of embedded messages, as the interpreter's
    recursion limit does; reaching it is a RuntimeError. Anything that is
    not a message has no [DESCRIPTOR]. The dict that is returned shows
    its items in the interpreter's iteration order. *)
Fixpoint proto2json_dict (depth : nat) (message_instance : value)
  : result value :=
  match depth with
  | O => Raise (PyExc RuntimeError)
  | S depth' =>
      match message_instance with
      | VMsg D s =>
          json_data ←
            for_each (proto2json_field (proto2json_dict depth') D s) D [];
          Ok (VDict (items json_data))
      | _ => Raise (PyExc AttributeError)
      end
  end.

Definition proto2json (depth : nat) (message_instance : value)
  : result json_text :=
  tree ← proto2json_dict depth message_instance;
  lift (dumps tree).

End Functions.

(** ** A reference runtime *)

(** An executable runtime. JSON text is represented by the tree it
    denotes, so [loads] and [dumps] are the identity on JSON trees. The
    constructors are defined on the kinds where their result is a matter
    of arithmetic; parsing numbers out of text and rendering floats or
    containers as text are [NotModelled]. The type checks are those of
    the message runtime, the dict order that of CPython 2.7. *)
Module Reference.

Fixpoint is_json (v : value) : bool :=
  match v with
  | VNone | VBool _ | VInt _ | VFloat _ | VStr _ => true
  | VList l => forallb is_json l
  | VDict d => forallb (fun kv => is_json (snd kv)) d
  | VMsg _ _ | VObj _ => false
  end.

Definition truth (v : value) : bool :=
  match v with
  | VNone => false
  | VBool b => b
  | VInt n => negb (n =? 0)
  | VFloat (S754_zero _) => false
  | VStr s => negb (bool_decide (s = EmptyString))
  | VList l => negb (bool_decide (l = []))
  | VDict d => negb (bool_decide (d = []))
  | VFloat _ | VMsg _ _ | VObj _ => true
  end.

Definition float_of_Z (n : Z) : outcome value :=
  match binary_normalize 53 1024 n 0 false with
  | S754_infinity _ => Throws OverflowError
  | x => Returns (VFloat x)
  end.

Definition trunc (x : spec_float) : outcome value :=
  match x with
  | S754_zero _ => Returns (VInt 0)
  | S754_finite s m e =>
      let mag := if 0 <=? e then Z.pos m * 2 ^ e else Z.pos m / 2 ^ (- e) in
      Returns (VInt (if s then - mag else mag))
  | S754_infinity _ => Throws OverflowError
  | S754_nan => Throws ValueError
  end.

Definition construct (ty : pytype) (v : value) : outcome value :=
  match ty, v with
  | Tbool, _ => Returns (VBool (truth v))
  | Tint, VInt n => Returns (VInt n)
  | Tint, VBool b => Returns (VInt (Z.b2z b))
  | Tint, VFloat x => trunc x
  | Tint, VStr _ => Throws NotModelled
  | Tint, _ => Throws TypeError
  | Tfloat, VFloat x => Returns (VFloat x)
  | Tfloat, VInt n => float_of_Z n
  | Tfloat, VBool b => float_of_Z (Z.b2z b)
  | Tfloat, VStr _ => Throws NotModelled
  | Tfloat, _ => Throws TypeError
  | Tunicode, VStr s => Returns (VStr s)
  | Tunicode, VNone => Returns (VStr "None")
  | Tunicode, VBool b => Returns (VStr (if b then "True" else "False"))
  | Tunicode, _ => Throws NotModelled
  end.

(** The type checks of the message runtime, by field type: integers
    within the range of the type, floats rounded to binary32 for a float
    field, text for string and bytes; a composite field is not
    assignable. *)
Definition check_int (lo hi : Z) (v : value) : outcome value :=
  match v with
  | VInt n =>
      if (lo <=? n) && (n <=? hi) then Returns (VInt n) else Throws ValueError
  | _ => Throws TypeError
  end.

Definition signed (s : bool) (m : positive) : Z :=
  if s then Z.neg m else Z.pos m.

Definition round32 (x : spec_float) : spec_float :=
  match x with
  | S754_finite s m e =>
      match binary_normalize 24 128 (signed s m) e s with
      | S754_finite s' m' e' => binary_normalize 53 1024 (signed s' m') e' s'
      | y => y
      end
  | _ => x
  end.

Definition is_one_of (t : Z) (ts : list Z) : bool := existsb (Z.eqb t) ts.

Definition check (f : field) (v : value) : outcome value :=
  let t := type f in
  if is_one_of t [TYPE_INT32; 15; 17; TYPE_ENUM] then
    check_int (- 2 ^ 31) (2 ^ 31 - 1) v
  else if is_one_of t [TYPE_INT64; 16; 18] then
    check_int (- 2 ^ 63) (2 ^ 63 - 1) v
  else if is_one_of t [TYPE_UINT32; 7] then check_int 0 (2 ^ 32 - 1) v
  else if is_one_of t [TYPE_UINT64; 6] then check_int 0 (2 ^ 64 - 1) v
  else if t =? TYPE_BOOL then
    match v with
    | VBool b => Returns (VBool b)
    | VInt n => Returns (VBool (negb (n =? 0)))
    | _ => Throws TypeError
    end
  else if t =? TYPE_FLOAT then
    match v with
    | VFloat x => Returns (VFloat (round32 x))
    | VInt n =>
        match float_of_Z n with
        | Returns (VFloat x) => Returns (VFloat (round32 x))
        | o => o
        end
    | _ => Throws TypeError
    end
  else if t =? TYPE_DOUBLE then
    match v with
    | VFloat x => Returns (VFloat x)
    | VInt n => float_of_Z n
    | _ => Throws TypeError
    end
  else if is_one_of t [TYPE_STRING; TYPE_BYTES] then
    match v with
    | VStr x => Returns (VStr x)
    | _ => Throws TypeError
    end
  else Throws AttributeError.

(** The iteration order of a CPython 2.7 dict with text keys, hash
    randomization off, 64-bit words: the string hash, a table of 8 slots
    probed from the low bits of the hash, grown fourfold when two thirds
    full, iterated slot by slot. *)
Definition word : Z := 2 ^ 64.

Definition string_hash (s : string) : Z :=
  match s with
  | EmptyString => 0
  | String c _ =>
      let codes :=
        map (fun a => Z.of_nat (nat_of_ascii a)) (list_ascii_of_string s) in
      let x := fold_left (fun x code => Z.lxor (1000003 * x mod word) code)
                         codes (Z.shiftl (Z.of_nat (nat_of_ascii c)) 7) in
      let x := Z.lxor x (Z.of_nat (String.length s)) in
      if x =? word - 1 then word - 2 else x
  end.

Fixpoint probe (fuel : nat) (t : list (option string)) (mask i perturb : Z)
  : option nat :=
  let slot := Z.to_nat (Z.land i mask) in
  match t !! slot with
  | Some None => Some slot
  | _ =>
      match fuel with
      | O => None
      | S fuel' =>
          probe fuel' t mask ((Z.shiftl i 2 + i + perturb + 1) mod word)
                (Z.shiftr perturb 5)
      end
  end.

Definition place (t : list (option string)) (k : string)
  : list (option string) :=
  let size := Z.of_nat (length t) in
  let h := string_hash k in
  match probe (length t + 16) t (size - 1) (Z.land h (size - 1)) h with
  | Some slot => <[slot := Some k]> t
  | None => t
  end.

Definition entries (t : list (option string)) : list string := omap id t.

Fixpoint new_size (fuel : nat) (size minused : Z) : Z :=
  match fuel with
  | O => size
  | S fuel' =>
      if size <=? minused then new_size fuel' (2 * size) minused else size
  end.

Definition resize (t : list (option string)) : list (option string) :=
  let used := Z.of_nat (length (entries t)) in
  let size := new_size 64 8 ((if 50000 <? used then 2 else 4) * used) in
  fold_left place (entries t) (replicate (Z.to_nat size) None).

Definition insert_key (t : list (option string)) (k : string)
  : list (option string) :=
  let t' := place t k in
  let used := Z.of_nat (length (entries t')) in
  if Z.of_nat (length t') * 2 <=? used * 3 then resize t' else t'.

Definition hash_order (ks : list string) : list string :=
  entries (fold_left insert_key (remove_dups ks) (replicate 8 None)).

Definition runtime : Runtime :=
  {| json_text := value;
     loads := fun t => if is_json t then Returns t else Throws ValueError;
     dumps := fun t => if is_json t then Returns t else Throws TypeError;
     call := construct;
     store := check;
     dict_order := hash_order |}.

End Reference.

(** ** The message types of the test-suite *)

(** The message types of [testdata/] ([node_pb2.Node],
    [repeated_field_pb2.TestMessage], [embedded_msg_pb2.TestMessage]) are
    generated from declarations that are not among the sources. *)
Module Testdata.

Definition State : gmap Z string :=
  list_to_map [(0, "PLANNED"); (1, "AVAILABLE")].

Definition nodeid : field :=
  Field "nodeid" TYPE_STRING LABEL_REQUIRED false (VStr EmptyString) ∅ [].
Definition state : field :=
  Field "state" TYPE_ENUM LABEL_OPTIONAL true (VInt 0) State [].

(** Modelled from the spec: the declaration of [Node] is missing. It has
    an optional enum [state] defaulting to PLANNED and a required text
    [nodeid], in the schema order of the specification's example; the
    enum numbers are a choice. The namespace holds the enum symbols and what else a generated
    class carries. *)
Definition Node : message_class :=
  {| fields := [state; nodeid];
     namespace :=
       list_to_map
         [ ("PLANNED", VInt 0); ("AVAILABLE", VInt 1);
           ("STATE_FIELD_NUMBER", VInt 1); ("NODEID_FIELD_NUMBER", VInt 2);
           ("SerializeToString", VObj "method") ] |}.

(** Modelled from the spec: the declarations of the two [TestMessage]
    types are missing. [Repeated] has a repeated text [notes]; [Embedded]
    has an embedded message whose only field [test] defaults to the text
    "test". *)
Definition notes : field :=
  Field "notes" TYPE_STRING LABEL_REPEATED false (VList []) ∅ [].
Definition Repeated : message_class :=
  {| fields := [notes]; namespace := ∅ |}.

Definition test : field :=
  Field "test" TYPE_STRING LABEL_OPTIONAL true (VStr "test") ∅ [].
Definition testmessage : field :=
  Field "testmessage" TYPE_MESSAGE LABEL_OPTIONAL false VNone ∅ [test].
Definition Embedded : message_class :=
  {| fields := [testmessage]; namespace := ∅ |}.

End Testdata.

(** ** Further message types *)

(** [Job] declares an optional enum [state] before a required text
    [owner] that has no default. [Sample] has one required field of type
    double, and [sample] is an instance with the field set to 1.5.
    [node] builds instances of [Node]. *)
Module Examples.
Import Testdata.

Definition owner : field :=
  Field "owner" TYPE_STRING LABEL_REQUIRED false (VStr EmptyString) ∅ [].
Definition Job : message_class :=
  {| fields := [state; owner]; namespace := namespace Node |}.

Definition reading : field :=
  Field "reading" TYPE_DOUBLE LABEL_REQUIRED false
        (VFloat (S754_zero false)) ∅ [].
Definition Sample : message_class :=
  {| fields := [reading]; namespace := ∅ |}.
Definition sample : message :=
  {| DESCRIPTOR := [reading];
     slots :=
       {["reading" := VFloat (S754_finite false 6755399441055744 (-52))]} |}.

Definition node (nodeid_value : string) (state_value : Z) : message :=
  {| DESCRIPTOR := [state; nodeid];
     slots := <["nodeid" := VStr nodeid_value]>
                (<["state" := VInt state_value]> ∅) |}.

End Examples.

(** [Roster] has one repeated field of embedded messages, [Series] one
    repeated field of type double. *)
Module Probes.
Import Testdata.

Definition members : field :=
  Field "members" TYPE_MESSAGE LABEL_REPEATED false VNone ∅ [test].
Definition Roster : message_class :=
  {| fields := [members]; namespace := ∅ |}.

(** [Host] declares the fields of [Node] in the other order, the text
    first. *)
Definition Host : message_class :=
  {| fields := [nodeid; state]; namespace := namespace Node |}.

(** [Track] has a repeated enum field whose symbols are single letters,
    and [Gauge] a float field and an int32 field. *)
Definition Grade : gmap Z string := list_to_map [(1, "a"); (2, "b")].
Definition grades : field :=
  Field "grades" TYPE_ENUM LABEL_REPEATED false VNone Grade [].
Definition Track : message_class :=
  {| fields := [grades];
     namespace := list_to_map [("a", VInt 1); ("b", VInt 2)] |}.

Definition level : field :=
  Field "level" TYPE_FLOAT LABEL_OPTIONAL false (VFloat (S754_zero false)) ∅ [].
Definition count : field :=
  Field "count" TYPE_INT32 LABEL_OPTIONAL false (VInt 0) ∅ [].
Definition Gauge : message_class :=
  {| fields := [level; count]; namespace := ∅ |}.

(** [tenth] is the double nearest to 0.1, and [tenth32] the double that
    the single nearest to 0.1 widens to, 0.10000000149011612. *)
Definition tenth : spec_float := S754_finite false 7205759403792794 (-56).
Definition tenth32 : spec_float := S754_finite false 7205759511166976 (-56).

Definition readings : field :=
  Field "readings" TYPE_DOUBLE LABEL_REPEATED false VNone ∅ [].
Definition Series : message_class :=
  {| fields := [readings]; namespace := ∅ |}.

End Probes.

(** ** Vocabulary of the properties *)

(** [isinstance(v, ty)]. *)
Definition is_instance (v : value) (ty : pytype) : bool :=
  match ty, v with
  | Tbool, VBool _ | Tint, VInt _ | Tfloat, VFloat _ | Tunicode, VStr _ => true
  | _, _ => false
  end.

(** A constructor applied to an instance of its own type returns it. *)
Definition kind_preserving (R : Runtime) : Prop :=
  forall ty v, is_instance v ty = true -> call ty v = Returns v.

(** Field names are unique within a message type. *)
Definition unique_names (D : list field) : Prop := NoDup (map name D).

(** [f] is a required field of [mc] without default for which the JSON
    object [d] has no member. *)
Definition missing_required (mc : message_class) (d : list (string * value))
    (f : field) : Prop :=
  In f (fields mc) /\ label f = LABEL_REQUIRED /\
  has_default_value f = false /\ Py.dict_get d (name f) = None.

(** Two JSON objects with the same members, in whatever order. *)
Definition same_members (d d' : list (string * value)) : Prop :=
  forall k, Py.dict_get d' k = Py.dict_get d k.

(** Field-for-field equality of two instances of one message type. *)
Definition fields_equal (m m' : message) : Prop :=
  DESCRIPTOR m' = DESCRIPTOR m /\
  forall f, In f (DESCRIPTOR m) ->
    getattr (slots m') f = getattr (slots m) f.

(** A value that a field of [mc] can carry through JSON and back: an enum
    number whose symbol the class resolves to that number, or an instance
    of the type TYPE_MAP gives for the field. *)
Definition carries (mc : message_class) (f : field) (v : value) : Prop :=
  if type f =? TYPE_ENUM then
    exists n symbol,
      v = VInt n /\ values_by_number f !! n = Some symbol /\
      class_getattr mc symbol = Some (VInt n)
  else
    exists ty, TYPE_MAP !! type f = Some ty /\ is_instance v ty = true.

Definition field_carries (mc : message_class) (s : gmap string value)
    (f : field) : Prop :=
  if label f =? LABEL_REPEATED then
    exists l, getattr s f = VList l /\ Forall (carries mc f) l
  else carries mc f (getattr s f).

(** The value that one iteration of the encode loop assigns under the
    field's name: the right-hand side of [json_data[field.name] = ...]. *)
Definition field_json {R : Runtime} (encode : value -> result value)
    (D : list field) (s : gmap string value) (f : field) : result value :=
  if label f =? LABEL_REPEATED then
    vals ← Py.iter (getattr s f);
    converted ←
      comprehension (fun val => _convert_proto_value encode f val (VMsg D s))
                    vals;
    Ok (VList converted)
  else _convert_proto_value encode f (getattr s f) (VMsg D s).

(** A value the encode converter accepts for field [f]: a number of the
    enum's table, anything for a TYPE_MAP type, and for an embedded message
    a value satisfying [sub]. *)
Definition convertible (sub : value -> Prop) (f : field) (v : value) : Prop :=
  if type f =? TYPE_ENUM then
    exists n symbol, v = VInt n /\ values_by_number f !! n = Some symbol
  else if bool_decide (is_Some (TYPE_MAP !! type f)) then True
  else type f = TYPE_MESSAGE /\ sub v.

(** [encodable n v]: [v] is a message instance, nested at most [n] deep,
    every field of which holds convertible values. *)
Fixpoint encodable (n : nat) (v : value) : Prop :=
  match n, v with
  | S n', VMsg D s =>
      forall f, In f D ->
        if label f =? LABEL_REPEATED then
          exists l, getattr s f = VList l /\
                    Forall (convertible (encodable n') f) l
        else convertible (encodable n') f (getattr s f)
  | _, _ => False
  end.

(** A value that the runtime stores as it is when it is assigned to the
    field, as the values that an instance holds are. *)
Definition kept {R : Runtime} (f : field) (v : value) : Prop :=
  store f v = Returns v.

Definition field_kept {R : Runtime} (s : gmap string value) (f : field)
  : Prop :=
  if label f =? LABEL_REPEATED then
    exists l, getattr s f = VList l /\ Forall (kept f) l
  else kept f (getattr s f).

(** What the decode loop needs of the JSON object [d] for field [f]: a
    member that converts to a value the runtime accepts (element by
    element for a repeated field), or, without a member, a default that
    the runtime accepts or, failing a default, a label other than
    required. *)
Definition decodable {R : Runtime} (mc : message_class)
    (d : list (string * value)) (f : field) : Prop :=
  match Py.dict_get d (name f) with
  | Some v =>
      if label f =? LABEL_REPEATED then
        exists vals outs stored,
          Py.iter v = Ok vals /\
          comprehension (fun val => _convert_json_value f val mc) vals
          = Ok outs /\
          comprehension (fun out => lift (store f out)) outs = Ok stored
      else
        exists c stored,
          _convert_json_value f v mc = Ok c /\ store f c = Returns stored
  | None =>
      if has_default_value f
      then exists stored, store f (default_value f) = Returns stored
      else label f <> LABEL_REQUIRED
  end.

(** ** The test-suite *)

(** The cases of [protobuf_json_test.py] on the reference runtime, on
    trees instead of texts. *)
Section Tests.
Import Testdata.
Existing Instance Reference.runtime.

Example test_alldataset :
  json2proto (VDict [("nodeid", VStr "host1.berlin");
                     ("state", VStr "AVAILABLE")]) Node
  = Ok {| DESCRIPTOR := [state; nodeid];
          slots := <["nodeid" := VStr "host1.berlin"]>
                     (<["state" := VInt 1]> ∅) |}.
Proof. reflexivity. Qed.

Example test_defaultdata :
  json2proto (VDict [("nodeid", VStr "host1.berlin")]) Node
  = Ok {| DESCRIPTOR := [state; nodeid];
          slots := <["nodeid" := VStr "host1.berlin"]>
                     (<["state" := VInt 0]> ∅) |}.
Proof. reflexivity. Qed.

Example test_raisesJsonDataMissingError :
  json2proto (VDict []) Node = Raise (JsonDataMissingError "nodeid").
Proof. reflexivity. Qed.

Example test_repeated_field :
  json2proto (VDict [("notes", VList [VStr "testnote"; VStr "testnotes"])])
             Repeated
  = Ok {| DESCRIPTOR := [notes];
          slots := {["notes" := VList [VStr "testnote"; VStr "testnotes"]]} |}.
Proof. reflexivity. Qed.

Example test_raisesProtoEnumValueNotFoundError :
  json2proto (VDict [("nodeid", VStr "host1.berlin");
                     ("state", VStr "WROONG")]) Node
  = Raise (ProtoEnumValueNotFoundError (VStr "WROONG")).
Proof. reflexivity. Qed.

Example test_raisesUnsupportedFieldTypeError :
  json2proto (VDict [("testmessage", VDict [("test", VStr "test")])])
             Embedded
  = Raise (UnsupportedFieldTypeError TYPE_MESSAGE).
Proof. reflexivity. Qed.

Example test_complete_node :
  proto2json_dict 2
    (VMsg [state; nodeid]
          (<["state" := VInt 1]> (<["nodeid" := VStr "testnode"]> ∅)))
  = Ok (VDict [("state", VStr "AVAILABLE"); ("nodeid", VStr "testnode")]).
Proof. reflexivity. Qed.

Example test_node_defaults :
  proto2json_dict 2 (VMsg [state; nodeid] {["nodeid" := VStr "testnode"]})
  = Ok (VDict [("state", VStr "PLANNED"); ("nodeid", VStr "testnode")]).
Proof. reflexivity. Qed.

Example test_node_raisesProtoEnumValueNotFoundError :
  proto2json 2
    (VMsg [state; nodeid]
          (<["state" := VInt 20]> (<["nodeid" := VStr "testnode"]> ∅)))
  = Raise (ProtoEnumValueNotFoundError (VInt 20)).
Proof. reflexivity. Qed.

Example test_embedded_msg :
  proto2json 2 (instance (new Embedded))
  = Ok (VDict [("testmessage", VDict [("test", VStr "test")])]).
Proof. reflexivity. Qed.

(** Two of the specification's testable properties, on its own inputs:
    a complete node survives encoding and decoding, and so does the order
    of the elements of a repeated field. *)
Example node_round_trip :
  proto2json 2 (instance (Examples.node "host1" 1))
    ≫= (fun json_str => json2proto json_str Node)
  = Ok (Examples.node "host1" 1).
Proof. reflexivity. Qed.

Example notes_round_trip :
  json2proto (VDict [("notes", VList [VStr "a"; VStr "b"])]) Repeated
    ≫= (fun m => proto2json 2 (instance m))
  = Ok (VDict [("notes", VList [VStr "a"; VStr "b"])]).
Proof. reflexivity. Qed.

End Tests.

(** ** Control-flow lemmas *)

Lemma bind_Ok {A B} (m : result A) (k : A -> result B) (b : B) :
  (m ≫= k) = Ok b <-> exists a, m = Ok a /\ k a = Ok b.
Proof.
  destruct m as [a|e]; simpl; split.
  - intros H; exists a; auto.
  - intros (a' & [= <-] & H); exact H.
  - discriminate.
  - intros (a' & [=] & _).
Qed.

Lemma bind_Raise {A B} (m : result A) (k : A -> result B) (e : exn) :
  (m ≫= k) = Raise e <-> m = Raise e \/ exists a, m = Ok a /\ k a = Raise e.
Proof.
  destruct m as [a|e']; simpl; split.
  - intros H; right; exists a; auto.
  - intros [[=]|(a' & [= <-] & H)]; exact H.
  - intros [= <-]; now left.
  - intros [[= <-]|(a' & [=] & _)]; reflexivity.
Qed.

Lemma comprehension_Ok {A B} (g : A -> result B) xs ys :
  comprehension g xs = Ok ys <-> Forall2 (fun x y => g x = Ok y) xs ys.
Proof.
  revert ys; induction xs as [|x xs IH]; intros ys; simpl.
  - split; [intros [= <-]; constructor | intros H; inversion H; reflexivity].
  - split.
    + intros H. apply bind_Ok in H as (y & Hy & H).
      apply bind_Ok in H as (ys' & Hys & [= <-]).
      constructor; [exact Hy | now apply IH].
    + intros H; inversion H as [|? y ? ys' Hy Hys]; subst.
      rewrite Hy; simpl. apply IH in Hys. rewrite Hys. reflexivity.
Qed.

Lemma comprehension_ext {A B} (g h : A -> result B) xs :
  (forall x, In x xs -> g x = h x) -> comprehension g xs = comprehension h xs.
Proof.
  induction xs as [|x xs IH]; intros E; simpl; [reflexivity|].
  rewrite (E x) by now left. rewrite IH; [reflexivity|].
  intros y Hy; apply E; now right.
Qed.

Lemma for_each_app {A S} (body : S -> A -> result S) xs ys s :
  for_each body (xs ++ ys) s = (for_each body xs s ≫= for_each body ys).
Proof.
  revert s; induction xs as [|x xs IH]; intros s; simpl; [reflexivity|].
  destruct (body s x) as [s'|e]; simpl; [apply IH | reflexivity].
Qed.

Lemma for_each_ext {A S} (body body' : S -> A -> result S) xs s :
  (forall s x, In x xs -> body s x = body' s x) ->
  for_each body xs s = for_each body' xs s.
Proof.
  revert s; induction xs as [|x xs IH]; intros s E; simpl; [reflexivity|].
  rewrite (E s x) by now left.
  destruct (body' s x) as [s'|e]; simpl; [|reflexivity].
  apply IH. intros s0 y Hy; apply E; now right.
Qed.

(** A loop that raises does so in the body of one of its iterations, after
    the iterations before it have completed. *)
Lemma for_each_Raise {A S} (body : S -> A -> result S) xs s e :
  for_each body xs s = Raise e ->
  exists pre x post s',
    xs = pre ++ x :: post /\ for_each body pre s = Ok s' /\
    body s' x = Raise e.
Proof.
  revert s; induction xs as [|x xs IH]; intros s; simpl; [discriminate|].
  intros H. apply bind_Raise in H as [H|(s1 & H1 & H)].
  - exists [], x, xs, s. auto.
  - destruct (IH _ H) as (pre & y & post & s' & -> & Hpre & Hy).
    exists (x :: pre), y, post, s'. simpl. rewrite H1. auto.
Qed.

(** ** Dict lemmas *)

Lemma dict_get_setitem_eq d k v : Py.dict_get (Py.setitem d k v) k = Some v.
Proof.
  induction d as [|[k' v'] d IH]; simpl.
  - now rewrite decide_True.
  - destruct (decide (k' = k)) as [->|Hne]; simpl.
    + now rewrite decide_True.
    + now rewrite decide_False.
Qed.

Lemma dict_get_setitem_ne d k k' v :
  k <> k' -> Py.dict_get (Py.setitem d k v) k' = Py.dict_get d k'.
Proof.
  intros Hne. induction d as [|[k0 v0] d IH]; simpl.
  - now rewrite decide_False.
  - destruct (decide (k0 = k)) as [->|Hk]; simpl.
    + now rewrite !decide_False.
    + destruct (decide (k0 = k')); [reflexivity | exact IH].
Qed.

Lemma dict_get_None d k : Py.dict_get d k = None <-> ~ In k (Py.keys d).
Proof.
  induction d as [|[k' v'] d IH]; simpl; [tauto|].
  destruct (decide (k' = k)) as [->|Hne].
  - split; [discriminate | intros H; exfalso; apply H; now left].
  - rewrite IH. tauto.
Qed.

Lemma keys_setitem_new d k v :
  ~ In k (Py.keys d) -> Py.keys (Py.setitem d k v) = Py.keys d ++ [k].
Proof.
  induction d as [|[k' v'] d IH]; simpl; intros Hk; [reflexivity|].
  destruct (decide (k' = k)) as [->|Hne]; [tauto|].
  simpl. f_equal. apply IH. tauto.
Qed.

(** ** The field value converter, JSON to message *)

Section ConvertJson.
Context {R : Runtime}.

(** A type that is neither the enum type nor a key of TYPE_MAP takes the
    decode converter to its last branch. *)
Lemma convert_json_unsupported (f : field) (v : value) (mc : message_class) :
  type f <> TYPE_ENUM -> TYPE_MAP !! type f = None ->
  _convert_json_value f v mc = Raise (UnsupportedFieldTypeError (type f)).
Proof.
  intros Hne Hty. unfold _convert_json_value.
  apply Z.eqb_neq in Hne. rewrite Hne, Hty. reflexivity.
Qed.

(** C5. Unsupported embedded decode: whatever JSON value is offered for
    a field of type message, and whatever the message class, the decode
    converter raises UnsupportedFieldTypeError (for the type number of
    TYPE_MESSAGE). *)
Theorem convert_json_message_unsupported (f : field) (v : value)
    (mc : message_class) :
  type f = TYPE_MESSAGE ->
  _convert_json_value f v mc = Raise (UnsupportedFieldTypeError TYPE_MESSAGE).
Proof.
  intros Ht. rewrite convert_json_unsupported; rewrite Ht.
  - reflexivity.
  - discriminate.
  - reflexivity.
Qed.

(** The enum branch of the decode converter on a text value: a lookup of
    the text in the namespace of the message class. *)
Lemma convert_json_enum (f : field) (s : string) (mc : message_class) :
  type f = TYPE_ENUM ->
  _convert_json_value f (VStr s) mc =
    match class_getattr mc s with
    | Some a => Ok a
    | None => Raise (ProtoEnumValueNotFoundError (VStr s))
    end.
Proof.
  intros Ht. unfold _convert_json_value. rewrite Ht, Z.eqb_refl.
  destruct (class_getattr mc s); reflexivity.
Qed.

(** C9. The decode-direction enum lookup ranges over the whole namespace
    of the message class: any text that names an attribute of the class
    is accepted and converted to that attribute, whether or not the
    field's enum defines it. [DESCRIPTOR], which every message class
    has, is converted to the descriptor object. *)
Theorem convert_json_enum_class_namespace (f : field) (mc : message_class) :
  type f = TYPE_ENUM ->
  (forall s a, class_getattr mc s = Some a ->
               _convert_json_value f (VStr s) mc = Ok a) /\
  _convert_json_value f (VStr "DESCRIPTOR") mc = Ok (VObj "Descriptor").
Proof.
  intros Ht. split.
  - intros s a Ha. rewrite convert_json_enum, Ha by exact Ht. reflexivity.
  - rewrite convert_json_enum by exact Ht. reflexivity.
Qed.

End ConvertJson.

(** ** The field value converter, message to JSON *)

Section ConvertProto.
Context {R : Runtime}.

Lemma convert_proto_enum encode (f : field) (n : Z) (obj : value) :
  type f = TYPE_ENUM ->
  _convert_proto_value encode f (VInt n) obj =
    match values_by_number f !! n with
    | Some symbol => Ok (VStr symbol)
    | None => Raise (ProtoEnumValueNotFoundError (VInt n))
    end.
Proof.
  intros Ht. unfold _convert_proto_value. rewrite Ht, Z.eqb_refl. simpl.
  destruct (values_by_number f !! n); reflexivity.
Qed.

Lemma convert_proto_scalar encode (f : field) (ty : pytype) (v obj : value) :
  type f <> TYPE_ENUM -> TYPE_MAP !! type f = Some ty ->
  _convert_proto_value encode f v obj = Ok v.
Proof.
  intros Hne Hty. unfold _convert_proto_value.
  apply Z.eqb_neq in Hne. rewrite Hne, Hty.
  rewrite bool_decide_eq_true_2 by eauto. reflexivity.
Qed.


(** C4. Enum error taxonomy. For an enum field: decoding a symbolic name
    raises ProtoEnumValueNotFoundError exactly when the message class
    does not know the name, and otherwise returns what the class
    associates with it; encoding an integer raises
    ProtoEnumValueNotFoundError exactly when the enum's number table has
    no entry for it, and otherwise returns the name of the entry. *)
Theorem enum_error_taxonomy (f : field) :
  type f = TYPE_ENUM ->
  (forall s mc,
     ((exists v, _convert_json_value f (VStr s) mc
                 = Raise (ProtoEnumValueNotFoundError v))
      <-> class_getattr mc s = None) /\
     (forall a, class_getattr mc s = Some a ->
                _convert_json_value f (VStr s) mc = Ok a)) /\
  (forall n encode obj,
     ((exists v, _convert_proto_value encode f (VInt n) obj
                 = Raise (ProtoEnumValueNotFoundError v))
      <-> values_by_number f !! n = None) /\
     (forall symbol, values_by_number f !! n = Some symbol ->
                _convert_proto_value encode f (VInt n) obj
                = Ok (VStr symbol))).
Proof.
  intros Ht. split.
  - intros s mc. rewrite convert_json_enum by exact Ht.
    destruct (class_getattr mc s) as [a|]; split.
    + split; [intros [v [=]] | discriminate].
    + intros a' [= <-]; reflexivity.
    + split; [reflexivity | intros _; eauto].
    + discriminate.
  - intros n encode obj. rewrite convert_proto_enum by exact Ht.
    destruct (values_by_number f !! n) as [symbol|]; split.
    + split; [intros [v [=]] | discriminate].
    + intros a' [= <-]; reflexivity.
    + split; [reflexivity | intros _; eauto].
    + discriminate.
Qed.

End ConvertProto.

(** ** More on loops *)

Lemma for_each_Ok_split {A S} (body : S -> A -> result S) pre x post s r :
  for_each body (pre ++ x :: post) s = Ok r ->
  exists s1 s2,
    for_each body pre s = Ok s1 /\ body s1 x = Ok s2 /\
    for_each body post s2 = Ok r.
Proof.
  rewrite for_each_app. intros H.
  apply bind_Ok in H as (s1 & H1 & H). simpl in H.
  apply bind_Ok in H as (s2 & H2 & H). eauto.
Qed.

Lemma for_each_Ok_impl {A S} (body body' : S -> A -> result S) xs s r :
  (forall s x s', In x xs -> body s x = Ok s' -> body' s x = Ok s') ->
  for_each body xs s = Ok r -> for_each body' xs s = Ok r.
Proof.
  revert s; induction xs as [|x xs IH]; intros s E; simpl; [auto|].
  intros H. apply bind_Ok in H as (s1 & H1 & H).
  rewrite (E s x s1) by (auto; now left). simpl.
  apply IH; [|exact H]. intros s0 y s' Hy. apply E. now right.
Qed.

Lemma for_each_invariant {A S} (P : S -> Prop) (body : S -> A -> result S)
    xs s r :
  (forall s x s', In x xs -> P s -> body s x = Ok s' -> P s') ->
  P s -> for_each body xs s = Ok r -> P r.
Proof.
  revert s; induction xs as [|x xs IH]; intros s E Hs; simpl.
  - intros [= <-]; exact Hs.
  - intros H. apply bind_Ok in H as (s1 & H1 & H).
    apply (IH s1); [| |exact H].
    + intros s0 y s' Hy. apply E. now right.
    + apply (E s x s1); auto. now left.
Qed.

Lemma comprehension_Raise {A B} (g : A -> result B) xs e :
  comprehension g xs = Raise e -> exists x, In x xs /\ g x = Raise e.
Proof.
  induction xs as [|x xs IH]; simpl; [discriminate|].
  intros H. apply bind_Raise in H as [H|(y & _ & H)].
  - exists x. split; [now left | exact H].
  - apply bind_Raise in H as [H|(ys & _ & [=])].
    destruct (IH H) as (x' & Hx' & Hg). exists x'. split; [now right|exact Hg].
Qed.

Lemma comprehension_Ok_impl {A B} (g h : A -> result B) xs ys :
  (forall x y, g x = Ok y -> h x = Ok y) ->
  comprehension g xs = Ok ys -> comprehension h xs = Ok ys.
Proof.
  intros E H. apply comprehension_Ok. apply comprehension_Ok in H.
  eapply Forall2_impl; [exact H|]. intros x y. apply E.
Qed.

Lemma lift_Ok {A} (o : outcome A) (a : A) : lift o = Ok a <-> o = Returns a.
Proof. destruct o; simpl; split; congruence. Qed.

Lemma lift_Raise {A} (o : outcome A) (e : exn) :
  lift o = Raise e -> exists b, e = PyExc b.
Proof. destruct o; simpl; [discriminate|]. intros [= <-]. eauto. Qed.

(** ** The message decoder *)

Section Decoder.
Context {R : Runtime}.

Lemma setattr_Ok m f v m' :
  setattr m f v = Ok m' <-> exists c, store f v = Returns c /\ m' = write m f c.
Proof.
  unfold setattr. destruct (store f v) as [c|b]; simpl; split.
  - intros [= <-]. eauto.
  - intros (c' & [= <-] & ->). reflexivity.
  - discriminate.
  - intros (c' & [=] & _).
Qed.

Lemma setattr_Raise m f v e :
  setattr m f v = Raise e -> exists b, e = PyExc b.
Proof.
  unfold setattr. destruct (store f v) as [c|b]; simpl; [discriminate|].
  intros [= <-]. eauto.
Qed.

Lemma stored_Ok f vs stored :
  comprehension (fun v => lift (store f v)) vs = Ok stored <->
  Forall2 (fun v c => store f v = Returns c) vs stored.
Proof.
  rewrite comprehension_Ok. split; intros H;
    (eapply Forall2_impl; [exact H|]); intros v c; apply lift_Ok.
Qed.

Lemma extend_Ok m f l vs m' :
  extend m f l vs = Ok m' <->
  exists stored,
    Forall2 (fun v c => store f v = Returns c) vs stored /\
    m' = write m f (VList (l ++ stored)).
Proof.
  unfold extend. split.
  - intros H. apply bind_Ok in H as (stored & H & [= <-]).
    exists stored. split; [now apply stored_Ok | reflexivity].
  - intros (stored & H & ->). apply stored_Ok in H. rewrite H. reflexivity.
Qed.

Lemma extend_Raise m f l vs e :
  extend m f l vs = Raise e -> exists b, e = PyExc b.
Proof.
  unfold extend. intros H. apply bind_Raise in H as [H|(stored & _ & [=])].
  apply comprehension_Raise in H as (v & _ & H). exact (lift_Raise _ _ H).
Qed.

(** On a JSON object, one iteration of the decode loop is decided by the
    member the object has under the field's name. *)
Lemma json2proto_field_dict mc d (m : message) (f : field) :
  json2proto_field mc (VDict d) m f =
    match Py.dict_get d (name f) with
    | Some v =>
        if label f =? LABEL_REPEATED then
          label_obj ← container m f;
          vals ← Py.iter v;
          converted ←
            comprehension (fun val => _convert_json_value f val mc) vals;
          extend m f label_obj converted
        else
          c ← _convert_json_value f v mc;
          setattr m f c
    | None =>
        if has_default_value f then setattr m f (default_value f)
        else if label f =? LABEL_REQUIRED
             then Raise (JsonDataMissingError (name f))
        else Ok m
    end.
Proof.
  unfold json2proto_field. simpl.
  destruct (Py.dict_get d (name f)) as [v|] eqn:E.
  - rewrite bool_decide_eq_true_2 by eauto. reflexivity.
  - rewrite bool_decide_eq_false_2 by (intros [? [=]]). reflexivity.
Qed.

Lemma json2proto_dict s mc d :
  loads s = Returns (VDict d) ->
  json2proto s mc =
    for_each (json2proto_field mc (VDict d)) (fields mc) (new mc).
Proof. intros H. unfold json2proto. rewrite H. reflexivity. Qed.

Lemma json2proto_loads s mc j :
  loads s = Returns j ->
  json2proto s mc = for_each (json2proto_field mc j) (fields mc) (new mc).
Proof. intros H. unfold json2proto. rewrite H. reflexivity. Qed.

(** The converters raise the module's exceptions only where the source
    says so: JsonDataMissingError never comes out of a conversion. *)
Lemma convert_json_not_missing f v mc n :
  _convert_json_value f v mc <> Raise (JsonDataMissingError n).
Proof.
  unfold _convert_json_value.
  destruct (type f =? TYPE_ENUM).
  - destruct v; try discriminate. destruct (class_getattr mc s); discriminate.
  - destruct (TYPE_MAP !! type f); [|discriminate].
    destruct (call p v); discriminate.
Qed.

Lemma comprehension_not_missing f mc vals n :
  comprehension (fun val => _convert_json_value f val mc) vals
  <> Raise (JsonDataMissingError n).
Proof.
  intros H. apply comprehension_Raise in H as (v & _ & H).
  exact (convert_json_not_missing _ _ _ _ H).
Qed.

(** One iteration raises JsonDataMissingError only in the branch written
    for it. *)
Lemma json2proto_field_missing mc d m f n :
  json2proto_field mc (VDict d) m f = Raise (JsonDataMissingError n) ->
  n = name f /\ label f = LABEL_REQUIRED /\ has_default_value f = false /\
  Py.dict_get d (name f) = None.
Proof.
  rewrite json2proto_field_dict.
  destruct (Py.dict_get d (name f)) as [v|].
  - destruct (label f =? LABEL_REPEATED).
    + intros H. exfalso.
      apply bind_Raise in H as [H|(l & _ & H)].
      { unfold container in H. destruct (getattr (slots m) f); discriminate. }
      apply bind_Raise in H as [H|(vals & _ & H)].
      { destruct v; discriminate. }
      apply bind_Raise in H as [H|(cs & _ & H)].
      * exact (comprehension_not_missing _ _ _ _ H).
      * apply extend_Raise in H as [b [=]].
    + intros H. exfalso.
      apply bind_Raise in H as [H|(c & _ & H)].
      * exact (convert_json_not_missing _ _ _ _ H).
      * apply setattr_Raise in H as [b [=]].
  - destruct (has_default_value f).
    + intros H. apply setattr_Raise in H as [b [=]].
    + destruct (label f =? LABEL_REQUIRED) eqn:E; [|discriminate].
      intros [= <-]. apply Z.eqb_eq in E. auto.
Qed.

(** An iteration that completes has left the instance alone or written
    the field's slot. *)
Lemma json2proto_field_Ok_shape mc j m f m' :
  json2proto_field mc j m f = Ok m' ->
  m' = m \/ exists v, m' = write m f v.
Proof.
  unfold json2proto_field. intros H.
  apply bind_Ok in H as (present & _ & H). destruct present.
  - apply bind_Ok in H as (v & _ & H).
    destruct (label f =? LABEL_REPEATED).
    + apply bind_Ok in H as (l & _ & H).
      apply bind_Ok in H as (vals & _ & H).
      apply bind_Ok in H as (cs & _ & H).
      apply extend_Ok in H as (stored & _ & ->). eauto.
    + apply bind_Ok in H as (c & _ & H).
      apply setattr_Ok in H as (c' & _ & ->). eauto.
  - destruct (has_default_value f).
    + apply setattr_Ok in H as (c' & _ & ->). eauto.
    + destruct (label f =? LABEL_REQUIRED); [discriminate|].
      injection H as <-. auto.
Qed.

(** An iteration leaves the descriptor alone and touches no slot but the
    field's own. *)
Lemma json2proto_field_frame mc json_data m f m' :
  json2proto_field mc json_data m f = Ok m' ->
  DESCRIPTOR m' = DESCRIPTOR m /\
  forall k, k <> name f -> slots m' !! k = slots m !! k.
Proof.
  intros H. apply json2proto_field_Ok_shape in H as [->|[v ->]]; [auto|].
  split; [reflexivity|]. intros k Hk. simpl.
  apply lookup_insert_ne. congruence.
Qed.

Lemma json2proto_loop_frame mc json_data fs m m' :
  for_each (json2proto_field mc json_data) fs m = Ok m' ->
  DESCRIPTOR m' = DESCRIPTOR m /\
  forall k, ~ In k (map name fs) -> slots m' !! k = slots m !! k.
Proof.
  revert m; induction fs as [|f fs IH]; intros m; simpl.
  - intros [= <-]; auto.
  - intros H. apply bind_Ok in H as (m1 & H1 & H).
    apply json2proto_field_frame in H1 as [HD1 HS1].
    apply IH in H as [HD HS]. split; [congruence|].
    intros k Hk. simpl in Hk.
    rewrite HS by tauto. apply HS1. intros ->. tauto.
Qed.

Lemma unique_names_inj D f g :
  unique_names D -> In f D -> In g D -> name f = name g -> f = g.
Proof.
  unfold unique_names. induction D as [|h D IH]; simpl; [tauto|].
  intros HD [->|Hf] [->|Hg] E; auto.
  - inversion HD as [|? ? Hh _]; subst. exfalso. apply Hh.
    rewrite E. apply list_elem_of_In, in_map, Hg.
  - inversion HD as [|? ? Hh _]; subst. exfalso. apply Hh.
    rewrite <- E. apply list_elem_of_In, in_map, Hf.
  - inversion HD; subst. auto.
Qed.

Lemma unique_names_split pre f post :
  unique_names (pre ++ f :: post) -> ~ In (name f) (map name post).
Proof.
  unfold unique_names. rewrite map_app. simpl. intros H.
  apply NoDup_app in H as (_ & _ & H).
  inversion H as [|? ? Hf _]; subst. rewrite <- list_elem_of_In. exact Hf.
Qed.

Lemma unique_names_split_pre pre f post :
  unique_names (pre ++ f :: post) -> ~ In (name f) (map name pre).
Proof.
  unfold unique_names. rewrite map_app. simpl. intros H.
  apply NoDup_app in H as (_ & H & _).
  intros Hin. apply (H (name f)); [now apply list_elem_of_In | now left].
Qed.

(** The decoder looks at the JSON object through the names of the
    fields only. *)
Lemma json2proto_field_agree mc d d' m f :
  Py.dict_get d' (name f) = Py.dict_get d (name f) ->
  json2proto_field mc (VDict d') m f = json2proto_field mc (VDict d) m f.
Proof. intros E. rewrite !json2proto_field_dict, E. reflexivity. Qed.

(** With unique names, the slot a decode leaves for a field is the one
    its own iteration left, and that iteration found the slot empty. *)
Lemma json2proto_at_field mc j f m :
  unique_names (fields mc) -> In f (fields mc) ->
  for_each (json2proto_field mc j) (fields mc) (new mc) = Ok m ->
  exists m1 m2,
    slots m1 !! name f = None /\
    json2proto_field mc j m1 f = Ok m2 /\
    slots m !! name f = slots m2 !! name f.
Proof.
  intros HD Hf H. destruct (in_split _ _ Hf) as (pre & post & E).
  rewrite E in HD, H.
  apply for_each_Ok_split in H as (m1 & m2 & H1 & H2 & H3).
  exists m1, m2. split; [|split; [exact H2|]].
  - apply json2proto_loop_frame in H1 as [_ H1].
    rewrite H1 by exact (unique_names_split_pre _ _ _ HD). apply lookup_empty.
  - apply json2proto_loop_frame in H3 as [_ H3].
    apply H3. exact (unique_names_split _ _ _ HD).
Qed.

(** When a decode returns, the iteration of each field has completed on
    some instance. *)
Lemma json2proto_field_completed mc j f m :
  In f (fields mc) ->
  for_each (json2proto_field mc j) (fields mc) (new mc) = Ok m ->
  exists m1 m2, json2proto_field mc j m1 f = Ok m2.
Proof.
  intros Hf H. destruct (in_split _ _ Hf) as (pre & post & E). rewrite E in H.
  apply for_each_Ok_split in H as (m1 & m2 & _ & H2 & _). eauto.
Qed.

(** An iteration completes on a decodable field whose slot is empty. *)
Lemma json2proto_field_decodable mc d m f :
  decodable mc d f -> slots m !! name f = None ->
  exists m', json2proto_field mc (VDict d) m f = Ok m'.
Proof.
  unfold decodable. rewrite json2proto_field_dict. intros H Hm.
  destruct (Py.dict_get d (name f)) as [v|].
  - destruct (label f =? LABEL_REPEATED) eqn:El.
    + destruct H as (vals & outs & stored & Hv & Hc & Hst).
      unfold container, getattr. rewrite Hm. simpl.
      unfold unset_value. rewrite El. simpl.
      rewrite Hv. simpl. rewrite Hc. simpl.
      unfold extend. rewrite Hst. simpl. eauto.
    + destruct H as (c & stored & -> & Hst). simpl.
      unfold setattr. rewrite Hst. simpl. eauto.
  - destruct (has_default_value f).
    + destruct H as (stored & Hst). unfold setattr. rewrite Hst. simpl. eauto.
    + apply Z.eqb_neq in H. rewrite H. eauto.
Qed.

Lemma json2proto_loop_returns mc d fs m :
  NoDup (map name fs) ->
  (forall f, In f fs -> slots m !! name f = None) ->
  (forall f, In f fs -> decodable mc d f) ->
  exists m', for_each (json2proto_field mc (VDict d)) fs m = Ok m'.
Proof.
  revert m; induction fs as [|f fs IH]; intros m HD Hm Hok; simpl; [eauto|].
  inversion HD as [|? ? Hf HD']; subst. rewrite list_elem_of_In in Hf.
  destruct (json2proto_field_decodable mc d m f) as [m1 H1];
    [apply Hok; now left | apply Hm; now left |].
  rewrite H1. simpl. apply IH; [exact HD'| |].
  - intros g Hg. apply json2proto_field_frame in H1 as [_ H1].
    rewrite H1; [apply Hm; now right|].
    intros E. apply Hf. rewrite <- E. now apply in_map.
  - intros g Hg. apply Hok. now right.
Qed.

End Decoder.

Section DecoderProperties.
Context {R : Runtime}.

(** On the decode loop, a member offered for a field that holds one
    embedded message aborts the decode. *)
Lemma json2proto_field_message mc d m f v :
  type f = TYPE_MESSAGE -> label f <> LABEL_REPEATED ->
  Py.dict_get d (name f) = Some v ->
  json2proto_field mc (VDict d) m f
  = Raise (UnsupportedFieldTypeError TYPE_MESSAGE).
Proof.
  intros Ht Hl Hv. apply Z.eqb_neq in Hl.
  rewrite json2proto_field_dict, Hv, Hl.
  rewrite convert_json_unsupported; rewrite Ht; [reflexivity | discriminate |].
  reflexivity.
Qed.

(** C2 (amended). Required-field enforcement. Decoding a JSON object
    raises JsonDataMissingError only for a required field that has no
    default and no member in the object, and names it; and it does raise
    it, for the first such field in schema order, as soon as the fields
    declared before that one are decoded without an exception, be it
    from a conversion or from the runtime's check of the value assigned.
    A required field with a default never triggers it. *)
Theorem required_field_enforcement (s : json_text) (mc : message_class)
    (d : list (string * value)) :
  loads s = Returns (VDict d) ->
  (forall n, json2proto s mc = Raise (JsonDataMissingError n) ->
             exists f, missing_required mc d f /\ name f = n) /\
  (forall pre f post m,
     fields mc = pre ++ f :: post ->
     missing_required mc d f ->
     for_each (json2proto_field mc (VDict d)) pre (new mc) = Ok m ->
     json2proto s mc = Raise (JsonDataMissingError (name f))).
Proof.
  intros Hs. rewrite (json2proto_dict _ _ _ Hs). split.
  - intros n H.
    apply for_each_Raise in H as (pre & f & post & m & Hf & _ & H).
    apply json2proto_field_missing in H as (-> & Hl & Hd & Hn).
    exists f. split; [|reflexivity].
    split; [|auto]. rewrite Hf. apply in_or_app. right. now left.
  - intros pre f post m Hf (_ & Hl & Hd & Hn) Hpre.
    rewrite Hf, for_each_app, Hpre. simpl.
    rewrite json2proto_field_dict, Hn, Hd, Hl. reflexivity.
Qed.

(** C3. Default materialization. Let the JSON object have no member for
    a field that has a default. Whenever the decode returns, it has
    assigned the default: the field's slot holds what the runtime stores
    for [default_value]. The decode does return whenever every field of
    the type is served by the object (see [decodable]). And an object
    that spells the default out, by a member whose conversion is the
    default value, decodes to the very same result. *)
Theorem default_materialization (s : json_text) (mc : message_class)
    (d : list (string * value)) (f : field) :
  unique_names (fields mc) ->
  In f (fields mc) ->
  has_default_value f = true ->
  loads s = Returns (VDict d) ->
  Py.dict_get d (name f) = None ->
  (forall m, json2proto s mc = Ok m ->
     exists stored,
       store f (default_value f) = Returns stored /\
       slots m !! name f = Some stored) /\
  ((forall g, In g (fields mc) -> decodable mc d g) ->
   exists m, json2proto s mc = Ok m) /\
  (forall s' d' v,
     label f <> LABEL_REPEATED ->
     loads s' = Returns (VDict d') ->
     Py.dict_get d' (name f) = Some v ->
     (forall g, In g (fields mc) -> name g <> name f ->
                Py.dict_get d' (name g) = Py.dict_get d (name g)) ->
     _convert_json_value f v mc = Ok (default_value f) ->
     json2proto s' mc = json2proto s mc).
Proof.
  intros HD Hf Hdef Hs Hn. rewrite (json2proto_dict _ _ _ Hs). split; [|split].
  - intros m H.
    destruct (json2proto_at_field _ _ _ _ HD Hf H) as (m1 & m2 & _ & H2 & ->).
    rewrite json2proto_field_dict, Hn, Hdef in H2.
    apply setattr_Ok in H2 as (stored & Hst & ->).
    exists stored. split; [exact Hst|]. simpl. apply lookup_insert_eq.
  - intros Hall. apply json2proto_loop_returns; [exact HD| |exact Hall].
    intros g _. apply lookup_empty.
  - intros s' d' v Hl Hs' Hv Hsame Hc. rewrite (json2proto_dict _ _ _ Hs').
    apply for_each_ext. intros m g Hg.
    destruct (decide (name g = name f)) as [E|E].
    + assert (g = f) as -> by eauto using unique_names_inj.
      rewrite !json2proto_field_dict, Hv, Hn, Hdef.
      apply Z.eqb_neq in Hl. rewrite Hl, Hc. reflexivity.
    + apply json2proto_field_agree. now apply Hsame.
Qed.

(** C8. Unknown-key tolerance. Two JSON objects that have the same
    member under every field name of the message type decode to the
    same result, instance or exception: members under any other key are
    never looked at. *)
Theorem unknown_keys_ignored (s s' : json_text) (mc : message_class)
    (d d' : list (string * value)) :
  loads s = Returns (VDict d) ->
  loads s' = Returns (VDict d') ->
  (forall f, In f (fields mc) ->
             Py.dict_get d' (name f) = Py.dict_get d (name f)) ->
  json2proto s' mc = json2proto s mc.
Proof.
  intros Hs Hs' E.
  rewrite (json2proto_dict _ _ _ Hs), (json2proto_dict _ _ _ Hs').
  apply for_each_ext. intros m f Hf.
  apply json2proto_field_agree, E, Hf.
Qed.

Lemma iter_text txt :
  Py.iter (VStr txt)
  = Py.iter (VList (map (fun c => VStr (String c EmptyString))
                        (list_ascii_of_string txt))).
Proof. reflexivity. Qed.

(** C10. No array check on repeated fields. For a message type with
    unique field names and a JSON object that holds a text under the name
    of a repeated field, [json2proto] does exactly what it does for the
    object that holds the array of the one-character texts of that text
    instead: the same instance or the same exception, so none is raised
    for the value not being an array. It returns whenever every field of
    the type is served by the object (see [decodable]: here, every
    character converts to a value the runtime accepts), and whenever it
    returns, the field holds, as separate elements and in order, what
    the runtime stored for the conversion of each character. *)
Theorem repeated_text_iterated_by_character (s s' : json_text)
    (mc : message_class) (d d' : list (string * value)) (f : field)
    (txt : string) :
  unique_names (fields mc) ->
  In f (fields mc) ->
  label f = LABEL_REPEATED ->
  loads s = Returns (VDict d) ->
  Py.dict_get d (name f) = Some (VStr txt) ->
  loads s' = Returns (VDict d') ->
  Py.dict_get d' (name f)
  = Some (VList (map (fun c => VStr (String c EmptyString))
                     (list_ascii_of_string txt))) ->
  (forall g, In g (fields mc) -> name g <> name f ->
             Py.dict_get d' (name g) = Py.dict_get d (name g)) ->
  json2proto s mc = json2proto s' mc /\
  ((forall g, In g (fields mc) -> decodable mc d g) ->
   exists m, json2proto s mc = Ok m) /\
  (forall m, json2proto s mc = Ok m ->
     exists outs stored,
       Forall2 (fun c out =>
                  _convert_json_value f (VStr (String c EmptyString)) mc
                  = Ok out) (list_ascii_of_string txt) outs /\
       Forall2 (fun out c => store f out = Returns c) outs stored /\
       slots m !! name f = Some (VList stored)).
Proof.
  intros HD Hf Hl Hs Hd Hs' Hd' Hsame.
  rewrite (json2proto_dict _ _ _ Hs), (json2proto_dict _ _ _ Hs').
  split; [|split].
  - apply for_each_ext. intros m g Hg.
    destruct (decide (name g = name f)) as [E|E].
    + assert (g = f) as -> by eauto using unique_names_inj.
      rewrite !json2proto_field_dict, Hd, Hd', Hl, iter_text. reflexivity.
    + apply json2proto_field_agree. symmetry. now apply Hsame.
  - intros Hall. apply json2proto_loop_returns; [exact HD| |exact Hall].
    intros g _. apply lookup_empty.
  - intros m H.
    destruct (json2proto_at_field _ _ _ _ HD Hf H) as (m1 & m2 & H1 & H2 & ->).
    rewrite json2proto_field_dict, Hd, Hl in H2. simpl in H2.
    apply bind_Ok in H2 as (l & Hc & H2).
    apply bind_Ok in H2 as (outs & Houts & H2).
    apply extend_Ok in H2 as (stored & Hst & ->).
    exists outs, stored. split; [|split; [exact Hst|]].
    + apply comprehension_Ok in Houts. unfold Py.chars in Houts.
      clear -Houts. revert outs Houts.
      induction (list_ascii_of_string txt) as [|c cs IH]; intros outs H;
        inversion H; subst; constructor; auto.
    + unfold container, getattr in Hc. rewrite H1 in Hc. simpl in Hc.
      unfold unset_value in Hc. rewrite Hl in Hc. simpl in Hc.
      injection Hc as <-. simpl. apply lookup_insert_eq.
Qed.

End DecoderProperties.

(** ** The iteration order of a dict *)

Section Items.
Context {R : Runtime}.

Lemma dict_get_app d1 d2 k :
  Py.dict_get (d1 ++ d2) k =
    match Py.dict_get d1 k with
    | Some v => Some v
    | None => Py.dict_get d2 k
    end.
Proof.
  induction d1 as [|[k' v'] d1 IH]; simpl; [reflexivity|].
  destruct (decide (k' = k)); [reflexivity | exact IH].
Qed.

Lemma dict_get_picked d order k :
  Py.dict_get
    (flat_map (fun k => match Py.dict_get d k with
                        | Some v => [(k, v)]
                        | None => []
                        end) order) k
  = if decide (k ∈ order) then Py.dict_get d k else None.
Proof.
  induction order as [|k' order IH].
  - simpl. destruct (decide (k ∈ [])) as [H|H]; [|reflexivity].
    now apply elem_of_nil in H.
  - cbn [flat_map]. rewrite dict_get_app, IH.
    destruct (decide (k' = k)) as [->|Hne].
    + rewrite (decide_True (P := k ∈ k :: order)) by apply list_elem_of_here.
      destruct (Py.dict_get d k) as [v|] eqn:E; simpl.
      * rewrite decide_True by reflexivity. reflexivity.
      * destruct (decide (k ∈ order)); reflexivity.
    + assert (Hk : Py.dict_get
                (match Py.dict_get d k' with
                 | Some v => [(k', v)]
                 | None => []
                 end) k = None).
      { destruct (Py.dict_get d k'); simpl; [|reflexivity].
        rewrite decide_False by exact Hne. reflexivity. }
      rewrite Hk.
      destruct (decide (k ∈ order)) as [Hin|Hin].
      * rewrite decide_True by (now apply list_elem_of_further). reflexivity.
      * rewrite decide_False; [reflexivity|].
        intros H. apply elem_of_cons in H as [->|H]; tauto.
Qed.

Lemma dict_get_rest d (order : list string) k :
  Py.dict_get (filter (fun kv => fst kv ∉ order) d) k
  = if decide (k ∈ order) then None else Py.dict_get d k.
Proof.
  induction d as [|[k' v'] d IH]; simpl.
  - destruct (decide (k ∈ order)); reflexivity.
  - rewrite filter_cons. simpl.
    destruct (decide (k' ∉ order)) as [Hk'|Hk']; simpl.
    + destruct (decide (k' = k)) as [->|Hne]; [|exact IH].
      rewrite decide_False by exact Hk'. reflexivity.
    + rewrite IH. destruct (decide (k' = k)) as [->|Hne]; [|reflexivity].
      repeat case_decide; try reflexivity; contradiction.
Qed.

(** Arranging the items of a dict changes no lookup. *)
Lemma dict_get_arrange order d k :
  Py.dict_get (Py.arrange order d) k = Py.dict_get d k.
Proof.
  unfold Py.arrange. rewrite dict_get_app, dict_get_picked, dict_get_rest.
  destruct (decide (k ∈ remove_dups order)) as [Hin|Hin].
  - destruct (Py.dict_get d k); [reflexivity|].
    rewrite elem_of_remove_dups in Hin. rewrite decide_True by exact Hin.
    reflexivity.
  - rewrite decide_False; [reflexivity|].
    intros H. apply Hin. now rewrite elem_of_remove_dups.
Qed.

Lemma dict_get_items d k : Py.dict_get (items d) k = Py.dict_get d k.
Proof. apply dict_get_arrange. Qed.

Lemma keys_In d k : In k (Py.keys d) <-> is_Some (Py.dict_get d k).
Proof.
  destruct (Py.dict_get d k) as [v|] eqn:E.
  - split; [eauto|]. intros _.
    destruct (in_dec string_dec k (Py.keys d)) as [H|H]; [exact H|].
    apply dict_get_None in H. congruence.
  - split; [|intros [? [=]]]. intros H. apply dict_get_None in E. tauto.
Qed.

Lemma keys_picked_elem d order k :
  k ∈ Py.keys
        (flat_map (fun k => match Py.dict_get d k with
                            | Some v => [(k, v)]
                            | None => []
                            end) order) ->
  k ∈ order.
Proof.
  rewrite list_elem_of_In, keys_In, dict_get_picked.
  destruct (decide (k ∈ order)); [auto | intros [? [=]]].
Qed.

Lemma keys_picked_NoDup d order :
  NoDup order ->
  NoDup (Py.keys
           (flat_map (fun k => match Py.dict_get d k with
                               | Some v => [(k, v)]
                               | None => []
                               end) order)).
Proof.
  induction 1 as [|k order Hk _ IH]; simpl; [constructor|].
  unfold Py.keys in *. rewrite map_app.
  destruct (Py.dict_get d k); simpl; [|exact IH].
  constructor; [|exact IH]. intros H. apply Hk.
  exact (keys_picked_elem _ _ _ H).
Qed.

Lemma keys_rest d (order : list string) :
  Py.keys (filter (fun kv => fst kv ∉ order) d)
  = filter (fun k => k ∉ order) (Py.keys d).
Proof.
  induction d as [|[k v] d IH]; simpl; [reflexivity|].
  rewrite !filter_cons. simpl.
  destruct (decide (k ∉ order)); simpl; rewrite IH; reflexivity.
Qed.

(** The items of a dict are its history in another order: as long as no
    key occurs twice in the history, none occurs twice among the items,
    and the keys are the same. *)
Lemma keys_items_permutation d :
  NoDup (Py.keys d) -> Py.keys (items d) ≡ₚ Py.keys d.
Proof.
  intros HD. apply NoDup_Permutation; [|exact HD|].
  - unfold items, Py.arrange, Py.keys. rewrite map_app.
    apply NoDup_app. split; [|split].
    + apply keys_picked_NoDup, NoDup_remove_dups.
    + intros k Hk Hk'. apply keys_picked_elem in Hk.
      rewrite elem_of_remove_dups in Hk.
      fold (Py.keys (filter (fun kv => kv.1 ∉ dict_order (map fst d)) d))
        in Hk'.
      rewrite keys_rest in Hk'. apply list_elem_of_filter in Hk' as [Hk' _].
      contradiction.
    + fold (Py.keys (filter (fun kv => kv.1 ∉ dict_order (map fst d)) d)).
      rewrite keys_rest. apply NoDup_filter. exact HD.
  - intros k. rewrite !list_elem_of_In, !keys_In, dict_get_items. reflexivity.
Qed.

Lemma picked_all d order :
  (forall k, k ∈ order -> is_Some (Py.dict_get d k)) ->
  Py.keys
    (flat_map (fun k => match Py.dict_get d k with
                        | Some v => [(k, v)]
                        | None => []
                        end) order)
  = order.
Proof.
  induction order as [|k order IH]; intros H; simpl; [reflexivity|].
  unfold Py.keys in *. rewrite map_app.
  destruct (H k) as [v ->]; [apply list_elem_of_here|]. simpl.
  f_equal. apply IH. intros k' Hk'. apply H. now apply list_elem_of_further.
Qed.

Lemma remove_dups_NoDup_id (l : list string) : NoDup l -> remove_dups l = l.
Proof.
  induction 1 as [|x l Hx _ IH]; simpl; [reflexivity|].
  rewrite IH. destruct (decide_rel elem_of x l); [contradiction|reflexivity].
Qed.

(** When the interpreter's order is an order of the keys it was given,
    the dict is iterated in exactly that order. *)
Lemma keys_items_order d :
  NoDup (Py.keys d) ->
  dict_order (Py.keys d) ≡ₚ Py.keys d ->
  Py.keys (items d) = dict_order (Py.keys d).
Proof.
  intros HD Hperm. unfold items, Py.arrange.
  set (order := dict_order (Py.keys d)) in *.
  assert (Hnd : NoDup order) by (rewrite Hperm; exact HD).
  unfold Py.keys at 1. rewrite map_app.
  fold (Py.keys (filter (fun kv => kv.1 ∉ order) d)).
  rewrite keys_rest, remove_dups_NoDup_id by exact Hnd.
  assert (filter (fun k => k ∉ order) (Py.keys d) = []) as ->.
  { clear HD. revert Hperm. generalize order. clear.
    intros order Hperm.
    assert (Hall : forall k, k ∈ Py.keys d -> k ∈ order)
      by (intros k Hk; now rewrite Hperm).
    clear Hperm. induction (Py.keys d) as [|k ks IH]; [reflexivity|].
    rewrite filter_cons. rewrite decide_False.
    - apply IH. intros k' Hk'. apply Hall. now apply list_elem_of_further.
    - intros Hn. apply Hn, Hall, list_elem_of_here. }
  rewrite app_nil_r. apply picked_all.
  intros k Hk. apply keys_In, list_elem_of_In. rewrite <- Hperm. exact Hk.
Qed.

End Items.

(** ** The message encoder *)

Section Encoder.
Context {R : Runtime}.

Lemma proto2json_field_assign encode D s json_data f :
  proto2json_field encode D s json_data f =
    (c ← field_json encode D s f; Ok (Py.setitem json_data (name f) c)).
Proof.
  unfold proto2json_field, field_json.
  destruct (label f =? LABEL_REPEATED); [|reflexivity].
  destruct (Py.iter (getattr s f)) as [vals|e]; simpl; [|reflexivity].
  destruct (comprehension _ vals); reflexivity.
Qed.

Lemma proto2json_dict_message n D s :
  proto2json_dict (S n) (VMsg D s) =
    (json_data ← for_each (proto2json_field (proto2json_dict n) D s) D [];
     Ok (VDict (items json_data))).
Proof. reflexivity. Qed.

(** What the encode loop has done to the history of the dict once it has
    run over the fields [fs], none of which was a key before: it has
    recorded their names in order, assigned each the value computed for
    it, and left the other keys alone. *)
Lemma proto2json_loop encode D s fs json_data json_data' :
  NoDup (Py.keys json_data ++ map name fs) ->
  for_each (proto2json_field encode D s) fs json_data = Ok json_data' ->
  Py.keys json_data' = Py.keys json_data ++ map name fs /\
  (forall f, In f fs ->
     exists c, field_json encode D s f = Ok c /\
               Py.dict_get json_data' (name f) = Some c) /\
  (forall k, ~ In k (map name fs) ->
     Py.dict_get json_data' k = Py.dict_get json_data k).
Proof.
  revert json_data; induction fs as [|f fs IH]; intros json_data HD; simpl.
  - intros [= <-]. rewrite app_nil_r.
    split; [reflexivity|]. split; [intros f []|reflexivity].
  - intros H. apply bind_Ok in H as (jd1 & H1 & H).
    rewrite proto2json_field_assign in H1.
    apply bind_Ok in H1 as (c & Hc & [= <-]).
    assert (Hf : ~ In (name f) (Py.keys json_data)).
    { apply NoDup_app in HD as (_ & HD & _). rewrite <- list_elem_of_In.
      intros Hin. apply (HD _ Hin). now left. }
    assert (Hfs : ~ In (name f) (map name fs)).
    { apply NoDup_app in HD as (_ & _ & HD). inversion HD; subst.
      now rewrite <- list_elem_of_In. }
    assert (Hk : Py.keys (Py.setitem json_data (name f) c)
                 = Py.keys json_data ++ [name f])
      by now apply keys_setitem_new.
    apply IH in H as (Hkeys & Hvals & Hrest).
    2:{ rewrite Hk, <- app_assoc. exact HD. }
    split; [|split].
    + rewrite Hkeys, Hk, <- app_assoc. reflexivity.
    + intros g [<-|Hg]; [|now apply Hvals].
      exists c. split; [exact Hc|].
      rewrite (Hrest _ Hfs). apply dict_get_setitem_eq.
    + intros k Hk'. rewrite Hrest by tauto.
      apply dict_get_setitem_ne. tauto.
Qed.

(** The loop completes when every right-hand side does. *)
Lemma proto2json_loop_returns encode D s fs json_data :
  (forall f, In f fs -> exists c, field_json encode D s f = Ok c) ->
  exists json_data',
    for_each (proto2json_field encode D s) fs json_data = Ok json_data'.
Proof.
  revert json_data; induction fs as [|f fs IH]; intros json_data H; simpl.
  - eauto.
  - destruct (H f) as [c Hc]; [now left|].
    rewrite proto2json_field_assign, Hc. simpl.
    apply IH. intros g Hg; apply H; now right.
Qed.

(** When the encode loop completes, the right-hand side of every
    iteration has been computed. *)
Lemma proto2json_loop_fields encode D s fs json_data json_data' f :
  for_each (proto2json_field encode D s) fs json_data = Ok json_data' ->
  In f fs -> exists c, field_json encode D s f = Ok c.
Proof.
  intros H Hf. destruct (in_split _ _ Hf) as (pre & post & ->).
  apply for_each_Ok_split in H as (jd1 & jd2 & _ & H & _).
  rewrite proto2json_field_assign in H.
  apply bind_Ok in H as (c & Hc & _). eauto.
Qed.

(** What the encoder returns for a message with unique field names: the
    members of the object are the values computed for the fields, and
    its keys are the field names in the order the history gives to the
    interpreter. *)
Lemma proto2json_dict_members n D s d :
  unique_names D ->
  proto2json_dict (S n) (VMsg D s) = Ok (VDict d) ->
  (exists json_data, d = items json_data /\ Py.keys json_data = map name D) /\
  (forall f, In f D ->
     exists c, field_json (proto2json_dict n) D s f = Ok c /\
               Py.dict_get d (name f) = Some c).
Proof.
  intros HD H. rewrite proto2json_dict_message in H.
  apply bind_Ok in H as (jd & H & [= <-]).
  apply proto2json_loop in H as (Hkeys & Hvals & _); [|exact HD].
  split; [eauto|].
  intros f Hf. destruct (Hvals f Hf) as (c & Hc & Hget).
  exists c. split; [exact Hc|]. now rewrite dict_get_items.
Qed.

Lemma proto2json_dict_Ok_message n v t :
  proto2json_dict n v = Ok t ->
  exists n' D s json_data,
    n = S n' /\ v = VMsg D s /\ t = VDict (items json_data) /\
    for_each (proto2json_field (proto2json_dict n') D s) D [] = Ok json_data.
Proof.
  destruct n as [|n']; [discriminate|]. simpl.
  destruct v as [| | | | | | |D s|]; try discriminate. intros H.
  apply bind_Ok in H as (jd & H & [= <-]).
  exists n', D, s, jd. auto.
Qed.

Lemma convertible_returns (sub : value -> Prop) encode f v obj :
  (forall v, sub v -> exists t, encode v = Ok t) ->
  convertible sub f v ->
  exists c, _convert_proto_value encode f v obj = Ok c.
Proof.
  intros Hsub. unfold convertible, _convert_proto_value.
  destruct (type f =? TYPE_ENUM).
  - intros (n & symbol & -> & Hn). simpl. rewrite Hn. eauto.
  - destruct (bool_decide _); [eauto|].
    intros [Ht Hv]. rewrite Ht. simpl. auto.
Qed.

(** X19. The encoder returns a tree for every encodable instance: a
    depth that covers the nesting of the instance is enough. *)
Lemma proto2json_dict_returns n v :
  encodable n v -> exists t, proto2json_dict n v = Ok t.
Proof.
  revert v; induction n as [|n IH]; intros v; [intros []|].
  destruct v as [| | | | | | |D s|]; try (intros []). intros H.
  rewrite proto2json_dict_message.
  destruct (proto2json_loop_returns (proto2json_dict n) D s D [])
    as [jd Hjd]; [|rewrite Hjd; simpl; eauto].
  intros f Hf. specialize (H f Hf). unfold field_json.
  destruct (label f =? LABEL_REPEATED).
  - destruct H as (l & -> & Hl). simpl.
    assert (exists cs, comprehension
              (fun val => _convert_proto_value (proto2json_dict n) f val
                            (VMsg D s)) l = Ok cs) as [cs ->];
      [|simpl; eauto].
    induction Hl as [|x l Hx _ [cs IHl]]; simpl; [eauto|].
    destruct (convertible_returns _ _ _ _ (VMsg D s) IH Hx) as [c ->].
    rewrite IHl. simpl. eauto.
  - exact (convertible_returns _ _ _ _ _ IH H).
Qed.

(** C6 (amended). Encode output shape. Whenever the encoder returns an
    object for a message instance with unique field names, the keys of
    the object are the names of the field descriptors, each once, so a
    field is present whether or not it was ever assigned. They appear in
    the order in which the interpreter iterates a dict to which they were
    assigned in descriptor order, which for Python 2 is the order of the
    hash table and not descriptor order. Under the name of a field that
    is not repeated stands the conversion of what reading the field
    returns (its default when it was never assigned), and the array
    under the name of a repeated field holds the conversions of the
    field's elements, in element order. *)
Theorem encode_shape (n : nat) (D : list field)
    (s : gmap string value) (d : list (string * value)) :
  unique_names D ->
  proto2json_dict (S n) (VMsg D s) = Ok (VDict d) ->
  Py.keys d ≡ₚ map name D /\
  (dict_order (map name D) ≡ₚ map name D ->
   Py.keys d = dict_order (map name D)) /\
  (forall f, In f D -> label f <> LABEL_REPEATED ->
     exists out,
       _convert_proto_value (proto2json_dict n) f (getattr s f) (VMsg D s)
       = Ok out /\
       Py.dict_get d (name f) = Some out) /\
  (forall f, In f D -> label f = LABEL_REPEATED ->
     exists vals outs,
       Py.iter (getattr s f) = Ok vals /\
       Forall2 (fun val out =>
                  _convert_proto_value (proto2json_dict n) f val (VMsg D s)
                  = Ok out) vals outs /\
       Py.dict_get d (name f) = Some (VList outs)).
Proof.
  intros HD H.
  destruct (proto2json_dict_members _ _ _ _ HD H)
    as [(jd & -> & Hkeys) Hvals].
  split; [|split; [|split]].
  - rewrite <- Hkeys. apply keys_items_permutation.
    rewrite Hkeys. exact HD.
  - intros Hperm. rewrite <- Hkeys in Hperm |- *.
    apply keys_items_order; [|exact Hperm]. rewrite Hkeys. exact HD.
  - intros f Hf Hl. destruct (Hvals f Hf) as (c & Hc & Hget).
    unfold field_json in Hc. apply Z.eqb_neq in Hl. rewrite Hl in Hc. eauto.
  - intros f Hf Hl. destruct (Hvals f Hf) as (c & Hc & Hget).
    unfold field_json in Hc. rewrite Hl in Hc. simpl in Hc.
    apply bind_Ok in Hc as (vals & Hvs & Hc).
    apply bind_Ok in Hc as (outs & Houts & [= <-]).
    exists vals, outs. split; [exact Hvs|]. split; [|exact Hget].
    now apply comprehension_Ok.
Qed.


End Encoder.

(** ** Round trip *)

Section RoundTrip.
Context {R : Runtime}.
Hypothesis own_kind : kind_preserving R.

(** A value the field carries is encoded to a JSON value that the
    decode converter takes back to it. *)
Lemma carries_back mc f v :
  carries mc f v ->
  exists c,
    (forall encode obj, _convert_proto_value encode f v obj = Ok c) /\
    _convert_json_value f c mc = Ok v.
Proof.
  unfold carries. destruct (type f =? TYPE_ENUM) eqn:Et.
  - apply Z.eqb_eq in Et. intros (n & symbol & -> & Hn & Hc).
    exists (VStr symbol). split.
    + intros. rewrite convert_proto_enum, Hn by exact Et. reflexivity.
    + rewrite convert_json_enum, Hc by exact Et. reflexivity.
  - pose proof Et as Hne. apply Z.eqb_neq in Hne.
    intros (ty & Hty & Hv). exists v. split.
    + intros. eapply convert_proto_scalar; eassumption.
    + unfold _convert_json_value. rewrite Et, Hty, (own_kind _ _ Hv).
      reflexivity.
Qed.

Lemma carries_back_list mc f encode obj l :
  Forall (carries mc f) l ->
  exists cs,
    comprehension (fun val => _convert_proto_value encode f val obj) l
    = Ok cs /\
    comprehension (fun val => _convert_json_value f val mc) cs = Ok l.
Proof.
  induction 1 as [|v l Hv _ (cs & He & Hd)]; simpl; [eauto|].
  destruct (carries_back _ _ _ Hv) as (c & Hc & Hb).
  exists (c :: cs). simpl. rewrite Hc, He, Hb, Hd. auto.
Qed.

Lemma kept_list f l :
  Forall (kept f) l -> comprehension (fun v => lift (store f v)) l = Ok l.
Proof.
  induction 1 as [|v l Hv _ IH]; simpl; [reflexivity|].
  unfold kept in Hv. rewrite Hv, IH. reflexivity.
Qed.

(** What the encoder writes for a field that carries its values is a
    member from which the decode loop restores the field, provided the
    runtime keeps the values and the field has not been assigned yet. *)
Lemma field_json_carries encode D s mc f :
  field_carries mc s f -> field_kept s f ->
  exists c,
    field_json encode D s f = Ok c /\
    forall m d',
      Py.dict_get d' (name f) = Some c ->
      slots m !! name f = None ->
      json2proto_field mc (VDict d') m f = Ok (write m f (getattr s f)).
Proof.
  unfold field_carries, field_kept, field_json.
  destruct (label f =? LABEL_REPEATED) eqn:El.
  - intros (l & Hl & Hall) (l' & Hl' & Hkept). rewrite Hl in Hl' |- *.
    injection Hl' as <-. simpl.
    destruct (carries_back_list mc f encode (VMsg D s) l Hall)
      as (cs & He & Hd).
    exists (VList cs). rewrite He. split; [reflexivity|].
    intros m d' Hget Hm.
    rewrite json2proto_field_dict, Hget, El.
    unfold container, getattr at 1. rewrite Hm. simpl.
    unfold unset_value. rewrite El. simpl. rewrite Hd. simpl.
    unfold extend. rewrite (kept_list _ _ Hkept). reflexivity.
  - intros Hv Hkept. destruct (carries_back _ _ _ Hv) as (c & Hc & Hb).
    exists c. split; [apply Hc|].
    intros m d' Hget Hm.
    rewrite json2proto_field_dict, Hget, El, Hb. simpl.
    unfold setattr. unfold kept in Hkept. rewrite Hkept. reflexivity.
Qed.

Lemma json2proto_loop_restores mc d' s fs m :
  NoDup (map name fs) ->
  (forall f, In f fs -> slots m !! name f = None) ->
  (forall f, In f fs -> forall m0,
     slots m0 !! name f = None ->
     json2proto_field mc (VDict d') m0 f = Ok (write m0 f (getattr s f))) ->
  exists m',
    for_each (json2proto_field mc (VDict d')) fs m = Ok m' /\
    DESCRIPTOR m' = DESCRIPTOR m /\
    forall f, In f fs -> slots m' !! name f = Some (getattr s f).
Proof.
  revert m; induction fs as [|f fs IH]; intros m HD Hm Hstep; simpl.
  - exists m. repeat split. intros f [].
  - inversion HD as [|? ? Hf HD']; subst.
    rewrite list_elem_of_In in Hf.
    rewrite (Hstep f) by (try apply Hm; now left). simpl.
    destruct (IH (write m f (getattr s f)) HD') as (m' & Hrun & HDm & Hs).
    + intros g Hg. simpl. rewrite lookup_insert_ne; [apply Hm; now right|].
      intros E. apply Hf. rewrite E. now apply in_map.
    + intros g Hg. apply Hstep. now right.
    + exists m'. split; [exact Hrun|]. split; [exact HDm|].
      intros g [<-|Hg]; [|now apply Hs].
      apply json2proto_loop_frame in Hrun as [_ Hrun].
      rewrite Hrun by exact Hf. simpl. apply lookup_insert_eq.
Qed.

(** C1 (amended). Round-trip identity. Let [m] be an instance of a
    message type with unique field names, every field of which carries
    its values: its type is in TYPE_MAP and it holds instances of the
    mapped type, or it is an enum holding numbers whose symbols the
    message class resolves back to them (so no field is an embedded
    message or of any other unsupported type). Let the values [m] holds
    be values as the runtime keeps them: assigning one to its field
    stores it unchanged. Then the encoder returns an object for [m], and
    for every text that the codec serializes the object to and parses
    back to an object with the same members, decoding that text against
    the type of [m] returns an instance that is field-for-field equal to
    [m]: reading any field of the one gives what reading it in the other
    gives (the decoded instance has every field assigned, also those
    that [m] left at their default). *)
Theorem round_trip (mc : message_class) (m : message) (depth : nat) :
  unique_names (fields mc) ->
  DESCRIPTOR m = fields mc ->
  (forall f, In f (fields mc) -> field_carries mc (slots m) f) ->
  (forall f, In f (fields mc) -> field_kept (slots m) f) ->
  exists d,
    proto2json_dict (S depth) (instance m) = Ok (VDict d) /\
    forall s d',
      dumps (VDict d) = Returns s ->
      loads s = Returns (VDict d') ->
      same_members d d' ->
      exists m', json2proto s mc = Ok m' /\ fields_equal m m'.
Proof.
  intros HD Hm Hall Hkept. unfold instance. rewrite Hm.
  set (D := fields mc) in *. set (enc := proto2json_dict depth).
  destruct (proto2json_loop_returns enc D (slots m) D []) as [jd Hjd].
  { intros f Hf.
    destruct (field_json_carries enc D (slots m) mc f (Hall f Hf)
                (Hkept f Hf)) as (c & Hc & _). eauto. }
  exists (items jd). split.
  { rewrite proto2json_dict_message. fold enc. rewrite Hjd. reflexivity. }
  intros s d' _ Hloads Hsame.
  apply proto2json_loop in Hjd as (_ & Hvals & _); [|exact HD].
  rewrite (json2proto_dict _ _ _ Hloads). fold D.
  destruct (json2proto_loop_restores mc d' (slots m) D (new mc) HD)
    as (m' & Hrun & HDm & Hs).
  - intros f _. apply lookup_empty.
  - intros f Hf m0 Hm0.
    destruct (field_json_carries enc D (slots m) mc f (Hall f Hf)
                (Hkept f Hf)) as (c & Hc & Hstep).
    apply Hstep; [|exact Hm0].
    destruct (Hvals f Hf) as (c' & Hc' & Hget).
    rewrite Hsame, dict_get_items, Hget. congruence.
  - exists m'. split; [exact Hrun|]. split.
    + rewrite HDm, Hm. reflexivity.
    + rewrite Hm. intros f Hf. unfold getattr at 1.
      rewrite (Hs f Hf). reflexivity.
Qed.

End RoundTrip.

(** ** More on the decode converter *)

Section ConvertJsonMore.
Context {R : Runtime}.

Lemma TYPE_MAP_keys (t : Z) :
  TYPE_MAP !! t = None <->
  ~ In t [TYPE_BOOL; TYPE_FLOAT; TYPE_INT32; TYPE_INT64; TYPE_UINT32;
          TYPE_UINT64; TYPE_STRING; TYPE_ENUM].
Proof.
  unfold TYPE_MAP. rewrite <- not_elem_of_list_to_map, <- list_elem_of_In.
  reflexivity.
Qed.

Lemma TYPE_MAP_None_not_enum (t : Z) : TYPE_MAP !! t = None -> t <> TYPE_ENUM.
Proof. intros H ->. discriminate H. Qed.

(** Every way the decode converter can raise. *)
Lemma convert_json_Raise f v mc e :
  _convert_json_value f v mc = Raise e ->
  (e = UnsupportedFieldTypeError (type f) /\ TYPE_MAP !! type f = None) \/
  (exists s, type f = TYPE_ENUM /\ v = VStr s /\
             e = ProtoEnumValueNotFoundError (VStr s) /\
             class_getattr mc s = None) \/
  (exists b, e = PyExc b).
Proof.
  unfold _convert_json_value. destruct (type f =? TYPE_ENUM) eqn:Et.
  - apply Z.eqb_eq in Et.
    destruct v; try (intros [= <-]; right; right; eauto).
    destruct (class_getattr mc s) eqn:Ea; [discriminate|].
    intros [= <-]. right; left. exists s. auto.
  - destruct (TYPE_MAP !! type f) as [ty|] eqn:Ety.
    + destruct (call ty v); [discriminate|].
      intros [= <-]. right; right; eauto.
    + intros [= <-]. left. auto.
Qed.

(** X3. The decode converter raises UnsupportedFieldTypeError exactly
    for the field types that are not keys of TYPE_MAP, that is every type
    but bool, float, int32, int64, uint32, uint64, string and enum; the
    exception then carries the field's type number. *)
Theorem convert_json_supported_types (f : field) (v : value)
    (mc : message_class) :
  ((exists t, _convert_json_value f v mc = Raise (UnsupportedFieldTypeError t))
   <-> ~ In (type f) [TYPE_BOOL; TYPE_FLOAT; TYPE_INT32; TYPE_INT64;
                      TYPE_UINT32; TYPE_UINT64; TYPE_STRING; TYPE_ENUM]) /\
  (forall t, _convert_json_value f v mc = Raise (UnsupportedFieldTypeError t)
             -> t = type f).
Proof.
  rewrite <- TYPE_MAP_keys. split; [split|].
  - intros [t H]. apply convert_json_Raise in H as [[_ H]|[H|[b [=]]]].
    + exact H.
    + destruct H as (s & _ & _ & [=] & _).
  - intros H. exists (type f). apply convert_json_unsupported; [|exact H].
    now apply TYPE_MAP_None_not_enum.
  - intros t H. apply convert_json_Raise in H as [[[= ->] _]|[H|[b [=]]]].
    + reflexivity.
    + destruct H as (s & _ & _ & [=] & _).
Qed.

(** X5. An enum field accepts a symbolic name only: for any JSON value
    that is not a text (a number, for instance the enum's own integer, a
    bool, null, an array, an object) the decode converter raises
    TypeError, not one of the module's exceptions. *)
Theorem convert_json_enum_needs_text (f : field) (v : value)
    (mc : message_class) :
  type f = TYPE_ENUM ->
  (forall s, v <> VStr s) ->
  _convert_json_value f v mc = Raise (PyExc TypeError).
Proof.
  intros Ht Hv. unfold _convert_json_value. rewrite Ht, Z.eqb_refl.
  destruct v; try reflexivity. now destruct (Hv s).
Qed.

End ConvertJsonMore.

(** ** More on the encode converter *)

Section ConvertProtoMore.
Context {R : Runtime}.

(** X4. For a field type that is neither enum nor message the encode
    converter never looks at the value: if the type is a key of TYPE_MAP
    the value is returned as it is, whatever its kind (no cast and no
    check), and otherwise UnsupportedFieldTypeError is raised with the
    field's type number. *)
Theorem convert_proto_scalar_types (encode : value -> result value)
    (f : field) (v obj : value) :
  type f <> TYPE_ENUM -> type f <> TYPE_MESSAGE ->
  _convert_proto_value encode f v obj =
    if bool_decide (In (type f) [TYPE_BOOL; TYPE_FLOAT; TYPE_INT32; TYPE_INT64;
                                 TYPE_UINT32; TYPE_UINT64; TYPE_STRING])
    then Ok v
    else Raise (UnsupportedFieldTypeError (type f)).
Proof.
  intros He Hm. unfold _convert_proto_value.
  apply Z.eqb_neq in He, Hm. rewrite He, Hm.
  destruct (TYPE_MAP !! type f) as [ty|] eqn:Ety.
  - rewrite bool_decide_eq_true_2 by eauto.
    rewrite bool_decide_eq_true_2; [reflexivity|].
    destruct (decide (In (type f) [TYPE_BOOL; TYPE_FLOAT; TYPE_INT32;
      TYPE_INT64; TYPE_UINT32; TYPE_UINT64; TYPE_STRING])) as [|Hn]; [auto|].
    exfalso. assert (TYPE_MAP !! type f = None); [|congruence].
    apply TYPE_MAP_keys. apply Z.eqb_neq in He. simpl in *. intuition.
  - rewrite bool_decide_eq_false_2 by (intros [? [=]]).
    rewrite bool_decide_eq_false_2; [reflexivity|].
    apply TYPE_MAP_keys in Ety. simpl in *. intuition.
Qed.

(** An encoder that returns more lets the converter return more. *)
Lemma convert_proto_Ok_impl (enc enc' : value -> result value) f v obj c :
  (forall v t, enc v = Ok t -> enc' v = Ok t) ->
  _convert_proto_value enc f v obj = Ok c ->
  _convert_proto_value enc' f v obj = Ok c.
Proof.
  intros E. unfold _convert_proto_value.
  destruct (type f =? TYPE_ENUM); [auto|].
  destruct (bool_decide _); [auto|].
  destruct (type f =? TYPE_MESSAGE); [apply E | auto].
Qed.

End ConvertProtoMore.

(** ** More on the message decoder *)

Section DecoderMore.
Context {R : Runtime}.

Lemma json2proto_field_keeps mc j m f m' k :
  json2proto_field mc j m f = Ok m' ->
  is_Some (slots m !! k) -> is_Some (slots m' !! k).
Proof.
  intros H Hk. apply json2proto_field_Ok_shape in H as [->|[v ->]]; [exact Hk|].
  simpl. destruct (decide (name f = k)) as [<-|Hne].
  - rewrite lookup_insert_eq. eauto.
  - rewrite lookup_insert_ne by exact Hne. exact Hk.
Qed.

Lemma json2proto_field_required mc j m f m' :
  label f = LABEL_REQUIRED ->
  json2proto_field mc j m f = Ok m' -> is_Some (slots m' !! name f).
Proof.
  intros Hl. unfold json2proto_field. rewrite Hl. intros H.
  change (LABEL_REQUIRED =? LABEL_REPEATED) with false in H.
  rewrite Z.eqb_refl in H.
  apply bind_Ok in H as (present & _ & H). destruct present.
  - apply bind_Ok in H as (v & _ & H).
    apply bind_Ok in H as (c & _ & H).
    apply setattr_Ok in H as (c' & _ & ->). simpl.
    rewrite lookup_insert_eq. eauto.
  - destruct (has_default_value f); [|discriminate].
    apply setattr_Ok in H as (c' & _ & ->). simpl.
    rewrite lookup_insert_eq. eauto.
Qed.

(** X1. A JSON text that is neither an object, an array nor a text
    (null, a bool, a number) cannot be searched for a field name: for a
    message type with at least one field the decoder raises TypeError. *)
Theorem json2proto_scalar_json_type_error (s : json_text)
    (mc : message_class) (j : value) :
  loads s = Returns j ->
  match j with
  | VNone | VBool _ | VInt _ | VFloat _ => True
  | _ => False
  end ->
  fields mc <> [] ->
  json2proto s mc = Raise (PyExc TypeError).
Proof.
  intros Hs Hj Hf. rewrite (json2proto_loads _ _ _ Hs).
  destruct (fields mc) as [|f fs]; [congruence|]. simpl.
  unfold json2proto_field. destruct j; try (destruct Hj); reflexivity.
Qed.

Lemma json2proto_field_non_object mc j m f m' :
  (forall d, j <> VDict d) ->
  json2proto_field mc j m f = Ok m' ->
  json2proto_field mc (VDict []) m f = Ok m'.
Proof.
  intros Hj. unfold json2proto_field at 1. intros H.
  apply bind_Ok in H as (present & _ & H). destruct present.
  - apply bind_Ok in H as (v & Hv & _). exfalso.
    destruct j; try discriminate Hv. now destruct (Hj d).
  - rewrite json2proto_field_dict. exact H.
Qed.

(** X2. Only a JSON object can supply values. When the JSON text is not
    an object (an array or a text, say) and decoding it returns an
    instance at all, that instance is the one that decoding the empty
    object returns: defaults, and nothing else. *)
Theorem json2proto_non_object_like_empty (s s0 : json_text)
    (mc : message_class) (j : value) (m : message) :
  loads s = Returns j ->
  (forall d, j <> VDict d) ->
  loads s0 = Returns (VDict []) ->
  json2proto s mc = Ok m ->
  json2proto s0 mc = Ok m.
Proof.
  intros Hs Hj Hs0. rewrite (json2proto_loads _ _ _ Hs), (json2proto_dict _ _ _ Hs0).
  apply for_each_Ok_impl. intros m0 f m' _.
  now apply json2proto_field_non_object.
Qed.

(** X6. A decoded instance is initialized: after a decode that returns,
    the slot of every required field has been assigned, from the JSON
    value or from the default. *)
Theorem json2proto_required_assigned (s : json_text) (mc : message_class)
    (m : message) (f : field) :
  json2proto s mc = Ok m ->
  In f (fields mc) ->
  label f = LABEL_REQUIRED ->
  is_Some (slots m !! name f).
Proof.
  unfold json2proto. intros H Hf Hl.
  apply bind_Ok in H as (j & _ & H).
  destruct (in_split _ _ Hf) as (pre & post & E). rewrite E in H.
  apply for_each_Ok_split in H as (m1 & m2 & _ & H2 & H).
  apply (json2proto_field_required _ _ _ _ _ Hl) in H2.
  apply (for_each_invariant (fun m0 => is_Some (slots m0 !! name f))
           _ _ _ _) with (3 := H); [|exact H2].
  intros m0 g m' _ Hm0 Hg. eapply json2proto_field_keeps; eassumption.
Qed.

(** X7. A decoded instance has the descriptor of the message class, and
    the decoder assigns no slot but those named by a field descriptor:
    nothing of an unknown JSON member is stored. *)
Theorem json2proto_slots_are_fields (s : json_text) (mc : message_class)
    (m : message) :
  json2proto s mc = Ok m ->
  DESCRIPTOR m = fields mc /\
  forall k, is_Some (slots m !! k) -> In k (map name (fields mc)).
Proof.
  unfold json2proto. intros H. apply bind_Ok in H as (j & _ & H). split.
  - apply json2proto_loop_frame in H as [H _]. exact H.
  - apply (for_each_invariant
             (fun m0 => forall k, is_Some (slots m0 !! k) ->
                                  In k (map name (fields mc)))
             _ _ _ _) with (3 := H).
    + intros m0 f m' Hf Hm0 Hstep k Hk.
      destruct (decide (k = name f)) as [->|Hne]; [now apply in_map|].
      apply json2proto_field_frame in Hstep as [_ Hstep].
      rewrite Hstep in Hk by exact Hne. auto.
    + intros k [v Hv]. simpl in Hv. rewrite lookup_empty in Hv. discriminate.
Qed.

End DecoderMore.

Section DecoderFields.
Context {R : Runtime}.

(** X8. An optional or repeated field that has no default and no member
    in the JSON object is left alone: after the decode its slot is still
    unassigned. *)
Theorem json2proto_absent_left_unset (s : json_text) (mc : message_class)
    (d : list (string * value)) (m : message) (f : field) :
  unique_names (fields mc) ->
  loads s = Returns (VDict d) ->
  json2proto s mc = Ok m ->
  In f (fields mc) ->
  has_default_value f = false ->
  Py.dict_get d (name f) = None ->
  slots m !! name f = None.
Proof.
  intros HD Hs H Hf Hdef Hn. rewrite (json2proto_dict _ _ _ Hs) in H.
  destruct (json2proto_at_field _ _ _ _ HD Hf H) as (m1 & m2 & H1 & H2 & ->).
  rewrite json2proto_field_dict, Hn, Hdef in H2.
  destruct (label f =? LABEL_REQUIRED); [discriminate|].
  injection H2 as <-. exact H1.
Qed.

(** X9. A member of the JSON object wins over the default: for a field
    that is not repeated and has a member in the object, a decode that
    returns has assigned the conversion of that member to the field,
    whether or not the field has a default; the field's slot holds what
    the runtime stores for that conversion. *)
Theorem json2proto_member_assigned (s : json_text) (mc : message_class)
    (d : list (string * value)) (m : message) (f : field) (v : value) :
  unique_names (fields mc) ->
  loads s = Returns (VDict d) ->
  json2proto s mc = Ok m ->
  In f (fields mc) ->
  label f <> LABEL_REPEATED ->
  Py.dict_get d (name f) = Some v ->
  exists c stored,
    _convert_json_value f v mc = Ok c /\
    store f c = Returns stored /\
    slots m !! name f = Some stored.
Proof.
  intros HD Hs H Hf Hl Hv. rewrite (json2proto_dict _ _ _ Hs) in H.
  destruct (json2proto_at_field _ _ _ _ HD Hf H) as (m1 & m2 & H1 & H2 & ->).
  apply Z.eqb_neq in Hl. rewrite json2proto_field_dict, Hv, Hl in H2.
  apply bind_Ok in H2 as (c & Hc & H2).
  apply setattr_Ok in H2 as (stored & Hst & ->).
  exists c, stored. split; [exact Hc|]. split; [exact Hst|].
  simpl. apply lookup_insert_eq.
Qed.

(** X10. Decoding a repeated field: when the JSON object has a member
    under the name of a repeated field and the decode returns, the member
    was iterable, and the field's slot holds exactly what the runtime
    stores for the conversions of its elements, in their order (a
    number, bool or null there makes the decode fail). *)
Theorem json2proto_repeated_in_order (s : json_text) (mc : message_class)
    (d : list (string * value)) (m : message) (f : field) (v : value) :
  unique_names (fields mc) ->
  loads s = Returns (VDict d) ->
  json2proto s mc = Ok m ->
  In f (fields mc) ->
  label f = LABEL_REPEATED ->
  Py.dict_get d (name f) = Some v ->
  exists vals outs stored,
    Py.iter v = Ok vals /\
    Forall2 (fun val out => _convert_json_value f val mc = Ok out) vals outs /\
    Forall2 (fun out c => store f out = Returns c) outs stored /\
    slots m !! name f = Some (VList stored).
Proof.
  intros HD Hs H Hf Hl Hv. rewrite (json2proto_dict _ _ _ Hs) in H.
  destruct (json2proto_at_field _ _ _ _ HD Hf H) as (m1 & m2 & H1 & H2 & ->).
  rewrite json2proto_field_dict, Hv, Hl in H2. simpl in H2.
  apply bind_Ok in H2 as (l & Hc & H2).
  apply bind_Ok in H2 as (vals & Hvals & H2).
  apply bind_Ok in H2 as (outs & Houts & H2).
  apply extend_Ok in H2 as (stored & Hst & ->).
  exists vals, outs, stored. split; [exact Hvals|].
  split; [now apply comprehension_Ok|]. split; [exact Hst|].
  unfold container, getattr in Hc. rewrite H1 in Hc. simpl in Hc.
  unfold unset_value in Hc. rewrite Hl in Hc. simpl in Hc.
  injection Hc as <-. simpl. apply lookup_insert_eq.
Qed.

(** A member for a field of an unsupported type lets the iteration
    complete only if the field is repeated and the member iterates to
    nothing. *)
Lemma json2proto_field_unsupported mc d m1 f v m2 :
  TYPE_MAP !! type f = None ->
  Py.dict_get d (name f) = Some v ->
  json2proto_field mc (VDict d) m1 f = Ok m2 ->
  label f = LABEL_REPEATED /\ Py.iter v = Ok [].
Proof.
  intros Ht Hv H. pose proof (TYPE_MAP_None_not_enum _ Ht) as Hne.
  rewrite json2proto_field_dict, Hv in H.
  destruct (label f =? LABEL_REPEATED) eqn:El.
  - apply Z.eqb_eq in El. split; [exact El|].
    apply bind_Ok in H as (l & _ & H).
    apply bind_Ok in H as (vals & Hvals & H).
    apply bind_Ok in H as (outs & Houts & _).
    destruct vals as [|x vals]; [exact Hvals|]. simpl in Houts.
    rewrite (convert_json_unsupported f x mc Hne Ht) in Houts. discriminate.
  - apply bind_Ok in H as (c & Hc & _).
    rewrite (convert_json_unsupported f v mc Hne Ht) in Hc. discriminate.
Qed.

(** X11. Unsupported types are reported element by element. When a
    decode returns although the JSON object has a member for a field
    whose type is not supported (an embedded message, a double, bytes),
    the field is repeated and the member iterates to nothing, as an empty
    array does; a member for a field of such a type that is not repeated
    always makes the decode fail. *)
Theorem json2proto_unsupported_member (s : json_text) (mc : message_class)
    (d : list (string * value)) (m : message) (f : field) (v : value) :
  loads s = Returns (VDict d) ->
  json2proto s mc = Ok m ->
  In f (fields mc) ->
  TYPE_MAP !! type f = None ->
  Py.dict_get d (name f) = Some v ->
  label f = LABEL_REPEATED /\ Py.iter v = Ok [].
Proof.
  intros Hs H Hf Ht Hv. rewrite (json2proto_dict _ _ _ Hs) in H.
  destruct (json2proto_field_completed _ _ _ _ Hf H) as (m1 & m2 & H2).
  eapply json2proto_field_unsupported; eassumption.
Qed.

(** Every way an iteration of the decode loop can raise one of the
    module's exceptions: the branch for a missing required field, or the
    conversion of the member or of one of its elements. *)
Lemma json2proto_field_Raise mc d m f e :
  json2proto_field mc (VDict d) m f = Raise e ->
  (exists b, e = PyExc b) \/
  (e = JsonDataMissingError (name f) /\ Py.dict_get d (name f) = None) \/
  (exists v x, Py.dict_get d (name f) = Some v /\
               _convert_json_value f x mc = Raise e).
Proof.
  rewrite json2proto_field_dict.
  destruct (Py.dict_get d (name f)) as [v|].
  - destruct (label f =? LABEL_REPEATED).
    + intros H. apply bind_Raise in H as [H|(l & _ & H)].
      { unfold container in H. left.
        destruct (getattr (slots m) f); try discriminate;
          injection H as <-; eauto. }
      apply bind_Raise in H as [H|(vals & _ & H)].
      { left. destruct v; try discriminate; injection H as <-; eauto. }
      apply bind_Raise in H as [H|(cs & _ & H)].
      * apply comprehension_Raise in H as (x & _ & H). right; right; eauto.
      * left. exact (extend_Raise _ _ _ _ _ H).
    + intros H. apply bind_Raise in H as [H|(c & _ & H)].
      * right; right; eauto.
      * left. exact (setattr_Raise _ _ _ _ H).
  - destruct (has_default_value f).
    + intros H. left. exact (setattr_Raise _ _ _ _ H).
    + destruct (label f =? LABEL_REQUIRED); [|discriminate].
      intros [= <-]. right; left. auto.
Qed.

(** X12. UnsupportedFieldTypeError on decode always points at a member
    of the JSON object: it is raised only for a field that has a member
    in the object and whose type is not a key of TYPE_MAP, and it carries
    that type number. A field of an unsupported type that the object
    omits never raises it. *)
Theorem json2proto_unsupported_raised_for_member (s : json_text)
    (mc : message_class) (d : list (string * value)) (t : Z) :
  loads s = Returns (VDict d) ->
  json2proto s mc = Raise (UnsupportedFieldTypeError t) ->
  exists f, In f (fields mc) /\ type f = t /\ TYPE_MAP !! t = None /\
            is_Some (Py.dict_get d (name f)).
Proof.
  intros Hs H. rewrite (json2proto_dict _ _ _ Hs) in H.
  apply for_each_Raise in H as (pre & f & post & m & E & _ & H).
  exists f. split; [rewrite E; apply in_or_app; right; now left|].
  apply json2proto_field_Raise in H as [[b [=]]|[[[=] _]|(v & x & Hv & H)]].
  apply convert_json_Raise in H as [[[= ->] H]|[H|[b [=]]]].
  - rewrite Hv. eauto.
  - destruct H as (s' & _ & _ & [=] & _).
Qed.

(** X13. ProtoEnumValueNotFoundError on decode always carries a text
    that the message class does not know: it is raised only for an enum
    field that has a member in the JSON object, and its payload is a
    symbolic name (the member, or an element of it) that is no attribute
    of the class. *)
Theorem json2proto_enum_error_names_unknown_symbol (s : json_text)
    (mc : message_class) (d : list (string * value)) (v : value) :
  loads s = Returns (VDict d) ->
  json2proto s mc = Raise (ProtoEnumValueNotFoundError v) ->
  exists f symbol,
    In f (fields mc) /\ type f = TYPE_ENUM /\
    is_Some (Py.dict_get d (name f)) /\
    v = VStr symbol /\ class_getattr mc symbol = None.
Proof.
  intros Hs H. rewrite (json2proto_dict _ _ _ Hs) in H.
  apply for_each_Raise in H as (pre & f & post & m & E & _ & H).
  apply json2proto_field_Raise in H as [[b [=]]|[[[=] _]|(v0 & x & Hv & H)]].
  apply convert_json_Raise in H as [[[=] _]|[H|[b [=]]]].
  destruct H as (symbol & Ht & _ & [= ->] & Ha).
  exists f, symbol. rewrite Hv.
  split; [rewrite E; apply in_or_app; right; now left|]. eauto.
Qed.

End DecoderFields.

(** ** More on the message encoder *)

Section EncoderMore.
Context {R : Runtime}.

(** X14. A message type with a field of an unsupported type (neither a
    key of TYPE_MAP nor message: double, bytes, the fixed and signed
    integer types) can be encoded only while that field is repeated and
    empty: whenever the encoder returns, the field is repeated and
    iterating its value yields nothing. An instance with such a field
    that is not repeated is never encoded, at any depth. *)
Theorem proto2json_dict_unsupported_field (n : nat) (D : list field)
    (s : gmap string value) (t : value) (f : field) :
  proto2json_dict n (VMsg D s) = Ok t ->
  In f D ->
  TYPE_MAP !! type f = None ->
  type f <> TYPE_MESSAGE ->
  label f = LABEL_REPEATED /\ Py.iter (getattr s f) = Ok [].
Proof.
  intros H Hf Ht Hm.
  apply proto2json_dict_Ok_message in H
    as (n' & D' & s' & jd & -> & [= <- <-] & _ & H).
  destruct (proto2json_loop_fields _ _ _ _ _ _ _ H Hf) as (c & Hc).
  assert (Hraise : forall v obj,
            _convert_proto_value (proto2json_dict n') f v obj
            = Raise (UnsupportedFieldTypeError (type f))).
  { intros v obj. unfold _convert_proto_value.
    pose proof (TYPE_MAP_None_not_enum _ Ht) as He.
    apply Z.eqb_neq in He, Hm. rewrite He, Hm, Ht.
    rewrite bool_decide_eq_false_2 by (intros [? [=]]). reflexivity. }
  unfold field_json in Hc. destruct (label f =? LABEL_REPEATED) eqn:El.
  - apply Z.eqb_eq in El. split; [exact El|].
    apply bind_Ok in Hc as (vals & Hvals & Hc).
    apply bind_Ok in Hc as (outs & Houts & _).
    destruct vals as [|x vals]; [exact Hvals|].
    simpl in Houts. rewrite Hraise in Houts. discriminate.
  - rewrite Hraise in Hc. discriminate.
Qed.

(** X15. Fields that were never assigned are encoded all the same. In
    the object the encoder returns, an unassigned repeated field stands
    as the empty array, whatever its type, and an unassigned field of a
    TYPE_MAP type other than enum stands as the default value of its
    descriptor. *)
Theorem proto2json_dict_unset_fields (n : nat) (D : list field)
    (s : gmap string value) (d : list (string * value)) (f : field) :
  unique_names D ->
  proto2json_dict (S n) (VMsg D s) = Ok (VDict d) ->
  In f D ->
  s !! name f = None ->
  (label f = LABEL_REPEATED -> Py.dict_get d (name f) = Some (VList [])) /\
  (label f <> LABEL_REPEATED -> type f <> TYPE_ENUM ->
   is_Some (TYPE_MAP !! type f) ->
   Py.dict_get d (name f) = Some (default_value f)).
Proof.
  intros HD H Hf Hs.
  apply proto2json_dict_members in H as [_ Hvals]; [|exact HD].
  destruct (Hvals f Hf) as (c & Hc & Hget). rewrite Hget.
  unfold field_json, getattr in Hc. rewrite Hs in Hc. simpl in Hc.
  unfold unset_value in Hc. split.
  - intros Hl. rewrite Hl in Hc. simpl in Hc. congruence.
  - intros Hl He [ty Hty]. apply Z.eqb_neq in Hl. rewrite Hl in Hc.
    rewrite (convert_proto_scalar _ _ ty _ _ He Hty) in Hc.
    destruct ((type f =? TYPE_MESSAGE) || (type f =? TYPE_GROUP)) eqn:Et;
      [|congruence].
    exfalso. apply orb_true_iff in Et as [Et|Et]; apply Z.eqb_eq in Et;
      rewrite Et in Hty; discriminate Hty.
Qed.

(** X16. The depth only bounds the nesting: a tree returned at some
    depth is returned at every greater depth. *)
Theorem proto2json_dict_depth_monotone (n n' : nat) (v t : value) :
  proto2json_dict n v = Ok t -> (n <= n')%nat -> proto2json_dict n' v = Ok t.
Proof.
  revert n' v t; induction n as [|n IH]; intros n' v t; [discriminate|].
  intros H Hn. destruct n' as [|n']; [lia|].
  destruct v as [| | | | | | |D s|]; try discriminate H.
  rewrite proto2json_dict_message in H |- *.
  apply bind_Ok in H as (jd & H & [= <-]).
  assert (E : forall v t, proto2json_dict n v = Ok t ->
                          proto2json_dict n' v = Ok t)
    by (intros v t Hv; apply (IH n' v t Hv); lia).
  assert (Hstep : forall jd0 f jd1, In f D ->
            proto2json_field (proto2json_dict n) D s jd0 f = Ok jd1 ->
            proto2json_field (proto2json_dict n') D s jd0 f = Ok jd1).
  { intros jd0 f jd1 _. unfold proto2json_field.
    destruct (label f =? LABEL_REPEATED).
    - intros H1. apply bind_Ok in H1 as (vals & -> & H1).
      apply bind_Ok in H1 as (outs & Houts & [= <-]). simpl.
      rewrite (comprehension_Ok_impl _
                 (fun val => _convert_proto_value (proto2json_dict n') f val
                               (VMsg D s)) _ _
                 (fun x y => convert_proto_Ok_impl _ _ _ _ _ _ E) Houts).
      reflexivity.
    - intros H1. apply bind_Ok in H1 as (c & Hc & [= <-]).
      rewrite (convert_proto_Ok_impl _ _ _ _ _ _ E Hc). reflexivity. }
  rewrite (for_each_Ok_impl _ _ _ _ _ Hstep H). reflexivity.
Qed.

End EncoderMore.

(** ** Encoding and decoding together *)

Section Together.
Context {R : Runtime}.

(** X17. The two directions are not symmetric for embedded messages:
    what the encoder returns for a message type with a field that holds
    one embedded message is never decoded back. Whatever text carries the
    encoded object, decoding it against the same message type does not
    return an instance. *)
Theorem encoded_embedded_message_not_decodable (n : nat)
    (mc : message_class) (s : gmap string value)
    (d d' : list (string * value)) (f : field) (txt : json_text)
    (m : message) :
  unique_names (fields mc) ->
  proto2json_dict (S n) (VMsg (fields mc) s) = Ok (VDict d) ->
  In f (fields mc) ->
  type f = TYPE_MESSAGE ->
  label f <> LABEL_REPEATED ->
  loads txt = Returns (VDict d') ->
  same_members d d' ->
  json2proto txt mc <> Ok m.
Proof.
  intros HD He Hf Ht Hl Htxt Hsame Hdec.
  apply proto2json_dict_members in He as [_ Hvals]; [|exact HD].
  destruct (Hvals f Hf) as (c & _ & Hget).
  rewrite (json2proto_dict _ _ _ Htxt) in Hdec.
  destruct (json2proto_field_completed _ _ _ _ Hf Hdec) as (m1 & m2 & H2).
  apply (json2proto_field_unsupported mc d' m1 f c m2) in H2 as [H2 _].
  - contradiction.
  - rewrite Ht. reflexivity.
  - rewrite Hsame. exact Hget.
Qed.

(** X18. From JSON to a message and back. When a JSON object decodes to
    an instance and the instance encodes to an object, a member given for
    a field that is not repeated comes back as follows: for a TYPE_MAP
    type other than enum, as what the message runtime stored for what
    the type's constructor made of the member (the stored value need not
    be the constructor's: a float field keeps single precision); for an
    enum, as the name the enum's number table has for what the runtime
    stored for the class attribute of the given symbol (the same symbol,
    or another one of that number). *)
Theorem json_round_trip_member (n : nat) (mc : message_class)
    (txt : json_text) (d d2 : list (string * value)) (m : message)
    (f : field) (v : value) :
  unique_names (fields mc) ->
  loads txt = Returns (VDict d) ->
  json2proto txt mc = Ok m ->
  proto2json_dict (S n) (instance m) = Ok (VDict d2) ->
  In f (fields mc) ->
  label f <> LABEL_REPEATED ->
  Py.dict_get d (name f) = Some v ->
  (forall ty, type f <> TYPE_ENUM -> TYPE_MAP !! type f = Some ty ->
     exists c stored,
       call ty v = Returns c /\ store f c = Returns stored /\
       Py.dict_get d2 (name f) = Some stored) /\
  (forall symbol a, type f = TYPE_ENUM -> v = VStr symbol ->
     class_getattr mc symbol = Some a ->
     exists stored symbol',
       store f a = Returns stored /\
       Py.int_dict_get (values_by_number f) stored = Ok (Some symbol') /\
       Py.dict_get d2 (name f) = Some (VStr symbol')).
Proof.
  intros HD Htxt Hdec Henc Hf Hl Hv.
  rewrite (json2proto_dict _ _ _ Htxt) in Hdec.
  destruct (json2proto_at_field _ _ _ _ HD Hf Hdec)
    as (m1 & m2 & _ & H2 & Hslot).
  apply json2proto_loop_frame in Hdec as [HDm _]. simpl in HDm.
  pose proof Hl as Hl'. apply Z.eqb_neq in Hl'.
  rewrite json2proto_field_dict, Hv, Hl' in H2.
  apply bind_Ok in H2 as (c & Hc & H2).
  apply setattr_Ok in H2 as (stored & Hst & ->).
  simpl in Hslot. rewrite lookup_insert_eq in Hslot.
  unfold instance in Henc. rewrite HDm in Henc.
  apply proto2json_dict_members in Henc as [_ Hvals]; [|exact HD].
  destruct (Hvals f Hf) as (c2 & Hc2 & Hget). rewrite Hget.
  unfold field_json, getattr in Hc2. rewrite Hl', Hslot in Hc2. simpl in Hc2.
  split.
  - intros ty He Hty. exists c, stored. split; [|split; [exact Hst|]].
    + unfold _convert_json_value in Hc. apply Z.eqb_neq in He.
      rewrite He, Hty in Hc.
      destruct (call ty v) as [a|b]; simpl in Hc; [|discriminate].
      injection Hc as ->. reflexivity.
    + rewrite (convert_proto_scalar _ _ ty _ _ He Hty) in Hc2. congruence.
  - intros symbol a He -> Ha.
    rewrite (convert_json_enum _ _ _ He), Ha in Hc. injection Hc as <-.
    unfold _convert_proto_value in Hc2. rewrite He, Z.eqb_refl in Hc2.
    apply bind_Ok in Hc2 as (tmp & Htmp & Hc2).
    destruct tmp as [symbol'|].
    + injection Hc2 as <-. exists stored, symbol'. auto.
    + apply bind_Ok in Hc2 as (u & _ & [=]).
Qed.

End Together.

(** ** When the decoder returns *)

Section DecoderReturns.
Context {R : Runtime}.

(** X20. When the decoder returns. For a message type with unique field
    names, decoding a JSON object returns an instance exactly when every
    field is served: its member converts to a value that the message
    runtime accepts for the field (each element of it, for a repeated
    field, the member being iterable), or it has no member and has a
    default that the runtime accepts, or has neither and is not
    required. *)
Theorem json2proto_returns_iff (s : json_text) (mc : message_class)
    (d : list (string * value)) :
  unique_names (fields mc) ->
  loads s = Returns (VDict d) ->
  (exists m, json2proto s mc = Ok m) <->
  (forall f, In f (fields mc) -> decodable mc d f).
Proof.
  intros HD Hs. rewrite (json2proto_dict _ _ _ Hs). split.
  - intros [m H] f Hf.
    destruct (json2proto_field_completed _ _ _ _ Hf H) as (m1 & m2 & H2).
    rewrite json2proto_field_dict in H2. unfold decodable.
    destruct (Py.dict_get d (name f)) as [v|].
    + destruct (label f =? LABEL_REPEATED).
      * apply bind_Ok in H2 as (l & _ & H2).
        apply bind_Ok in H2 as (vals & Hvals & H2).
        apply bind_Ok in H2 as (outs & Houts & H2).
        apply extend_Ok in H2 as (stored & Hst & _).
        apply stored_Ok in Hst. eauto 6.
      * apply bind_Ok in H2 as (c & Hc & H2).
        apply setattr_Ok in H2 as (stored & Hst & _). eauto.
    + destruct (has_default_value f).
      * apply setattr_Ok in H2 as (stored & Hst & _). eauto.
      * destruct (label f =? LABEL_REQUIRED) eqn:El; [discriminate|].
        now apply Z.eqb_neq.
  - intros H. apply json2proto_loop_returns; [exact HD| |exact H].
    intros f _. apply lookup_empty.
Qed.

End DecoderReturns.

(** ** The properties on the message types above *)

Section Instances.
Import Testdata Examples Probes.
Existing Instance Reference.runtime.

Lemma reference_kind_preserving : kind_preserving Reference.runtime.
Proof. intros [] []; simpl; try discriminate; reflexivity. Qed.

Lemma Node_unique_names : unique_names (fields Node).
Proof. apply (bool_decide_unpack _). vm_compute. exact I. Qed.

Lemma Gauge_unique_names : unique_names (fields Gauge).
Proof. apply (bool_decide_unpack _). vm_compute. exact I. Qed.

Lemma Repeated_unique_names : unique_names (fields Repeated).
Proof. apply (bool_decide_unpack _). vm_compute. exact I. Qed.

Lemma node_carries n :
  n = 0 \/ n = 1 ->
  forall f, In f (fields Node) ->
            field_carries Node (slots (node "testnode" n)) f.
Proof.
  intros Hn f [<-|[<-|[]]].
  - destruct Hn as [->| ->].
    + exists 0, "PLANNED". repeat split.
    + exists 1, "AVAILABLE". repeat split.
  - exists Tunicode. split; reflexivity.
Qed.

Lemma node_kept n :
  n = 0 \/ n = 1 ->
  forall f, In f (fields Node) -> field_kept (slots (node "testnode" n)) f.
Proof.
  intros Hn f [<-|[<-|[]]].
  - destruct Hn as [->| ->]; reflexivity.
  - reflexivity.
Qed.

(** The checks of the runtime, seen through the decoder: a class
    attribute that is no number is refused for an enum field, a number
    beyond the range of the field's type is refused, and a float field
    keeps single precision. *)
Example decode_refused_attribute :
  json2proto (VDict [("state", VStr "DESCRIPTOR")]) Node
  = Raise (PyExc TypeError).
Proof. reflexivity. Qed.

Example decode_refused_range :
  json2proto (VDict [("count", VInt 4294967296)]) Gauge
  = Raise (PyExc ValueError).
Proof. reflexivity. Qed.

Example decode_single_precision :
  json2proto (VDict [("level", VFloat tenth)]) Gauge
  = Ok {| DESCRIPTOR := [level; count];
          slots := {["level" := VFloat tenth32]} |}.
Proof. reflexivity. Qed.

(** The key order of the reference runtime on the names of [Node]: in a
    table of 8 slots, "state" goes to slot 2 and "nodeid" to slot 5. *)
Example string_hash_slots :
  Reference.string_hash "a" = 12416037344 /\
  Z.land (Reference.string_hash "state") 7 = 2 /\
  Z.land (Reference.string_hash "nodeid") 7 = 5.
Proof. repeat split. Qed.

Example hash_order_Node :
  Reference.hash_order ["nodeid"; "state"] = ["state"; "nodeid"] /\
  Reference.hash_order ["state"; "nodeid"] = ["state"; "nodeid"].
Proof. split; reflexivity. Qed.

Lemma convert_json_message_unsupported_witness :
  _convert_json_value testmessage (VDict [("test", VStr "test")]) Embedded
  = Raise (UnsupportedFieldTypeError TYPE_MESSAGE).
Proof. apply convert_json_message_unsupported. reflexivity. Defined.

Lemma convert_json_enum_class_namespace_witness :
  _convert_json_value state (VStr "SerializeToString") Node
    = Ok (VObj "method") /\
  _convert_json_value state (VStr "DESCRIPTOR") Node
    = Ok (VObj "Descriptor").
Proof.
  destruct (convert_json_enum_class_namespace state Node eq_refl)
    as [Hany Hdesc].
  split; [apply Hany; reflexivity | exact Hdesc].
Defined.

Lemma enum_error_taxonomy_witness :
  _convert_json_value state (VStr "AVAILABLE") Node = Ok (VInt 1) /\
  _convert_proto_value (proto2json_dict 0) state (VInt 1) VNone
    = Ok (VStr "AVAILABLE").
Proof.
  destruct (enum_error_taxonomy state eq_refl) as [Hdec Henc].
  split.
  - apply (Hdec "AVAILABLE" Node). reflexivity.
  - apply (Henc 1 (proto2json_dict 0) VNone). reflexivity.
Defined.

Lemma required_field_enforcement_witness :
  json2proto (VDict [("state", VStr "AVAILABLE")]) Node
  = Raise (JsonDataMissingError "nodeid").
Proof.
  apply (required_field_enforcement (R := Reference.runtime)
           (VDict [("state", VStr "AVAILABLE")]) Node
           [("state", VStr "AVAILABLE")] eq_refl)
    with (pre := [state]) (f := nodeid) (post := [])
         (m := write (new Node) state (VInt 1)).
  - reflexivity.
  - repeat split. right. now left.
  - reflexivity.
Defined.

Lemma default_materialization_witness :
  (exists m, json2proto (VDict [("nodeid", VStr "host1")]) Node = Ok m /\
             slots m !! "state" = Some (VInt 0)) /\
  json2proto (VDict [("nodeid", VStr "host1"); ("state", VStr "PLANNED")])
             Node
  = json2proto (VDict [("nodeid", VStr "host1")]) Node.
Proof.
  destruct (default_materialization (R := Reference.runtime)
              (VDict [("nodeid", VStr "host1")]) Node
              [("nodeid", VStr "host1")] state)
    as (Hset & Hret & Hsame).
  - exact Node_unique_names.
  - now left.
  - reflexivity.
  - reflexivity.
  - reflexivity.
  - split.
    + destruct Hret as [m Hm].
      { intros g [<-|[<-|[]]].
        - exists (VInt 0). reflexivity.
        - exists (VStr "host1"), (VStr "host1"). split; reflexivity. }
      exists m. split; [exact Hm|].
      destruct (Hset m Hm) as (stored & Hst & Hslot).
      injection Hst as <-. exact Hslot.
    + apply (Hsame (VDict [("nodeid", VStr "host1");
                           ("state", VStr "PLANNED")])
                   [("nodeid", VStr "host1"); ("state", VStr "PLANNED")]
                   (VStr "PLANNED")).
      * discriminate.
      * reflexivity.
      * reflexivity.
      * intros g [<-|[<-|[]]] Hne; [now destruct Hne | reflexivity].
      * reflexivity.
Defined.

Lemma unknown_keys_ignored_witness :
  json2proto (VDict [("rack", VInt 7); ("nodeid", VStr "host1");
                     ("tags", VList [VStr "a"])]) Node
  = json2proto (VDict [("nodeid", VStr "host1")]) Node.
Proof.
  eapply (unknown_keys_ignored (R := Reference.runtime));
    [reflexivity | reflexivity |].
  intros f [<-|[<-|[]]]; reflexivity.
Defined.

Lemma repeated_text_iterated_by_character_witness :
  json2proto (VDict [("notes", VStr "ab")]) Repeated
  = json2proto (VDict [("notes", VList [VStr "a"; VStr "b"])]) Repeated /\
  exists m, json2proto (VDict [("notes", VStr "ab")]) Repeated = Ok m /\
            slots m !! "notes" = Some (VList [VStr "a"; VStr "b"]).
Proof.
  destruct (repeated_text_iterated_by_character (R := Reference.runtime)
              (VDict [("notes", VStr "ab")])
              (VDict [("notes", VList [VStr "a"; VStr "b"])]) Repeated
              [("notes", VStr "ab")]
              [("notes", VList [VStr "a"; VStr "b"])] notes "ab")
    as (Hsame & Hret & Hslot).
  - exact Repeated_unique_names.
  - now left.
  - reflexivity.
  - reflexivity.
  - reflexivity.
  - reflexivity.
  - reflexivity.
  - intros g [<-|[]] Hne. now destruct Hne.
  - split; [exact Hsame|].
    destruct Hret as [m Hm].
    { intros g [<-|[]].
      exists [VStr "a"; VStr "b"], [VStr "a"; VStr "b"],
             [VStr "a"; VStr "b"].
      repeat split. }
    exists m. split; [exact Hm|].
    destruct (Hslot m Hm) as (outs & stored & Ho & Hs & Hnotes).
    inversion Ho as [|? a ? outs1 Ha Ho1]; subst.
    inversion Ho1 as [|? b ? outs2 Hb Ho2]; subst.
    inversion Ho2; subst.
    injection Ha as <-. injection Hb as <-.
    inversion Hs as [|? a' ? st1 Ha' Hs1]; subst.
    inversion Hs1 as [|? b' ? st2 Hb' Hs2]; subst.
    inversion Hs2; subst.
    injection Ha' as <-. injection Hb' as <-. exact Hnotes.
Defined.

Lemma encode_shape_witness :
  proto2json_dict 1 (VMsg [state; nodeid] {["nodeid" := VStr "testnode"]})
    = Ok (VDict [("state", VStr "PLANNED"); ("nodeid", VStr "testnode")]) /\
  Py.keys [("state", VStr "PLANNED"); ("nodeid", VStr "testnode")]
    = dict_order (map name [state; nodeid]) /\
  Py.dict_get [("state", VStr "PLANNED"); ("nodeid", VStr "testnode")]
              "state" = Some (VStr "PLANNED").
Proof.
  split; [reflexivity|].
  destruct (encode_shape 0 [state; nodeid]
              {["nodeid" := VStr "testnode"]}
              [("state", VStr "PLANNED"); ("nodeid", VStr "testnode")])
    as (_ & Horder & Hone & _).
  - exact Node_unique_names.
  - reflexivity.
  - split; [apply Horder; reflexivity|].
    destruct (Hone state) as (out & Hout & Hget);
      [now left | discriminate |].
    injection Hout as <-. exact Hget.
Defined.


Lemma round_trip_witness :
  exists d,
    proto2json_dict 1 (instance (node "testnode" 1)) = Ok (VDict d) /\
    forall s d',
      dumps (VDict d) = Returns s ->
      loads s = Returns (VDict d') ->
      same_members d d' ->
      exists m', json2proto s Node = Ok m' /\
                 fields_equal (node "testnode" 1) m'.
Proof.
  apply (round_trip reference_kind_preserving Node (node "testnode" 1) 0).
  - exact Node_unique_names.
  - reflexivity.
  - apply node_carries. now right.
  - apply node_kept. now right.
Defined.

(** The condition on the values of the instance is needed: a slot map
    that holds the double 0.1 in a float field, which the runtime would
    not have stored, is encoded, and decoded to an instance that holds
    the single-precision value. *)
Example round_trip_needs_kept :
  proto2json_dict 1 (VMsg [level; count] {["level" := VFloat tenth]})
    = Ok (VDict [("count", VInt 0); ("level", VFloat tenth)]) /\
  json2proto (VDict [("count", VInt 0); ("level", VFloat tenth)]) Gauge
    = Ok {| DESCRIPTOR := [level; count];
            slots := <["count" := VInt 0]> {["level" := VFloat tenth32]} |}.
Proof. split; reflexivity. Qed.

(** C1, as stated, fails. [sample] has its only field, a required
    double, set, and no embedded message; the encoder raises
    UnsupportedFieldTypeError on it at every depth, so no text exists
    to decode. *)
Lemma round_trip_fails_on_double :
  (forall f, In f (fields Sample) -> label f = LABEL_REQUIRED ->
             is_Some (slots sample !! name f)) /\
  (forall f, In f (fields Sample) -> type f <> TYPE_MESSAGE) /\
  forall depth,
    ~ exists s m',
        proto2json depth (instance sample) = Ok s /\
        json2proto s Sample = Ok m' /\ fields_equal sample m'.
Proof.
  split; [|split].
  - intros f [<-|[]] _. eexists. reflexivity.
  - intros f [<-|[]]. discriminate.
  - intros [|depth] (s & m' & H & _); discriminate H.
Qed.

(** The same happens within the supported types, as the test-suite has
    it: a node whose enum field holds a number outside the enum's table
    cannot be encoded, although its required field is set. *)
Lemma round_trip_fails_on_stale_enum :
  forall depth,
    ~ exists s, proto2json depth (instance (node "testnode" 20)) = Ok s.
Proof. intros [|depth] [s H]; discriminate H. Qed.

(** C2, as stated, fails. Decoding [{"state": "WROONG"}] against [Job]
    leaves the required field [owner], which has no default, without a
    value, yet the exception raised is ProtoEnumValueNotFoundError: the
    enum field comes first in the schema and its conversion fails. *)
Lemma missing_required_preempted :
  (exists f, missing_required Job [("state", VStr "WROONG")] f) /\
  json2proto (VDict [("state", VStr "WROONG")]) Job
    = Raise (ProtoEnumValueNotFoundError (VStr "WROONG")) /\
  ~ exists n, json2proto (VDict [("state", VStr "WROONG")]) Job
              = Raise (JsonDataMissingError n).
Proof.
  split; [|split].
  - exists owner. repeat split. right. now left.
  - reflexivity.
  - intros [n H]. discriminate H.
Qed.

(** C6, as stated, fails. [Host] declares the text field before the enum
    field, and the object the encoder returns for an instance of it has
    the enum's key first: the keys come in the order in which the
    interpreter's dict iterates them, which the names decide and the
    schema does not. *)
Lemma schema_order_not_kept :
  unique_names (fields Host) /\
  proto2json_dict 1 (VMsg (fields Host) {["nodeid" := VStr "testnode"]})
    = Ok (VDict [("state", VStr "PLANNED"); ("nodeid", VStr "testnode")]) /\
  Py.keys [("state", VStr "PLANNED"); ("nodeid", VStr "testnode")]
    <> map name (fields Host).
Proof.
  split; [|split].
  - apply (bool_decide_unpack _). vm_compute. exact I.
  - reflexivity.
  - discriminate.
Qed.

End Instances.

(** ** The further properties on the message types above *)

Section MoreInstances.
Import Testdata Examples Probes.
Existing Instance Reference.runtime.

Lemma convert_json_enum_needs_text_witness :
  _convert_json_value state (VInt 1) Node = Raise (PyExc TypeError).
Proof.
  apply convert_json_enum_needs_text; [reflexivity | discriminate].
Defined.

Lemma convert_proto_scalar_types_witness :
  _convert_proto_value (proto2json_dict 0) nodeid (VInt 7) VNone
    = Ok (VInt 7) /\
  _convert_proto_value (proto2json_dict 0) reading (VInt 7) VNone
    = Raise (UnsupportedFieldTypeError TYPE_DOUBLE).
Proof.
  split.
  - rewrite convert_proto_scalar_types; [reflexivity | discriminate..].
  - rewrite convert_proto_scalar_types; [reflexivity | discriminate..].
Defined.

Lemma json2proto_scalar_json_type_error_witness :
  json2proto (VInt 5) Node = Raise (PyExc TypeError).
Proof.
  apply (json2proto_scalar_json_type_error (R := Reference.runtime)
           (VInt 5) Node (VInt 5)); [reflexivity | exact I | discriminate].
Defined.

Lemma json2proto_non_object_like_empty_witness :
  json2proto (VDict []) Repeated = Ok (new Repeated).
Proof.
  apply (json2proto_non_object_like_empty (R := Reference.runtime)
           (VList [VStr "testnote"]) (VDict []) Repeated
           (VList [VStr "testnote"]));
    [reflexivity | discriminate | reflexivity | reflexivity].
Defined.

Lemma json2proto_required_assigned_witness :
  is_Some (slots (node "host1" 0) !! "nodeid").
Proof.
  apply (json2proto_required_assigned (R := Reference.runtime)
           (VDict [("nodeid", VStr "host1")]) Node (node "host1" 0) nodeid).
  - reflexivity.
  - right. now left.
  - reflexivity.
Defined.

Lemma json2proto_slots_are_fields_witness :
  DESCRIPTOR (node "host1" 0) = fields Node /\
  forall k, is_Some (slots (node "host1" 0) !! k) ->
            In k (map name (fields Node)).
Proof.
  apply (json2proto_slots_are_fields (R := Reference.runtime)
           (VDict [("rack", VInt 7); ("nodeid", VStr "host1")]) Node).
  reflexivity.
Defined.

Lemma json2proto_absent_left_unset_witness :
  slots (new Embedded) !! "testmessage" = None.
Proof.
  apply (json2proto_absent_left_unset (R := Reference.runtime)
           (VDict []) Embedded [] (new Embedded) testmessage).
  - apply (bool_decide_unpack _). vm_compute. exact I.
  - reflexivity.
  - reflexivity.
  - now left.
  - reflexivity.
  - reflexivity.
Defined.

Lemma json2proto_member_assigned_witness :
  _convert_json_value level (VFloat tenth) Gauge = Ok (VFloat tenth) /\
  store level (VFloat tenth) = Returns (VFloat tenth32) /\
  slots {| DESCRIPTOR := [level; count];
           slots := {["level" := VFloat tenth32]} |} !! "level"
  = Some (VFloat tenth32).
Proof.
  destruct (json2proto_member_assigned (R := Reference.runtime)
              (VDict [("level", VFloat tenth)]) Gauge
              [("level", VFloat tenth)]
              {| DESCRIPTOR := [level; count];
                 slots := {["level" := VFloat tenth32]} |}
              level (VFloat tenth))
    as (c & stored & Hc & Hst & Hslot).
  - exact Gauge_unique_names.
  - reflexivity.
  - reflexivity.
  - now left.
  - discriminate.
  - reflexivity.
  - injection Hc as <-. vm_compute in Hst. injection Hst as <-.
    split; [reflexivity | split; [reflexivity | exact Hslot]].
Defined.

Lemma json2proto_repeated_in_order_witness :
  exists vals outs stored,
    Py.iter (VList [VStr "a"; VStr "b"]) = Ok vals /\
    Forall2 (fun val out => _convert_json_value notes val Repeated = Ok out)
            vals outs /\
    Forall2 (fun out c => store notes out = Returns c) outs stored /\
    slots {| DESCRIPTOR := [notes];
             slots := {["notes" := VList [VStr "a"; VStr "b"]]} |} !! "notes"
    = Some (VList stored).
Proof.
  apply (json2proto_repeated_in_order (R := Reference.runtime)
           (VDict [("notes", VList [VStr "a"; VStr "b"])]) Repeated
           [("notes", VList [VStr "a"; VStr "b"])]).
  - exact Repeated_unique_names.
  - reflexivity.
  - reflexivity.
  - now left.
  - reflexivity.
  - reflexivity.
Defined.

Lemma json2proto_unsupported_member_witness :
  label members = LABEL_REPEATED /\ Py.iter (VList []) = Ok [].
Proof.
  apply (json2proto_unsupported_member (R := Reference.runtime)
           (VDict [("members", VList [])]) Roster [("members", VList [])]
           {| DESCRIPTOR := [members];
              slots := {["members" := VList []]} |}).
  - reflexivity.
  - reflexivity.
  - now left.
  - reflexivity.
  - reflexivity.
Defined.

Lemma json2proto_unsupported_raised_for_member_witness :
  exists f, In f (fields Embedded) /\ type f = TYPE_MESSAGE /\
            TYPE_MAP !! TYPE_MESSAGE = None /\
            is_Some (Py.dict_get [("testmessage", VDict [])] (name f)).
Proof.
  apply (json2proto_unsupported_raised_for_member (R := Reference.runtime)
           (VDict [("testmessage", VDict [])]) Embedded);
    reflexivity.
Defined.

Lemma json2proto_enum_error_names_unknown_symbol_witness :
  exists f symbol,
    In f (fields Node) /\ type f = TYPE_ENUM /\
    is_Some (Py.dict_get [("state", VStr "WROONG")] (name f)) /\
    VStr "WROONG" = VStr symbol /\ class_getattr Node symbol = None.
Proof.
  apply (json2proto_enum_error_names_unknown_symbol (R := Reference.runtime)
           (VDict [("state", VStr "WROONG")]) Node);
    reflexivity.
Defined.

Lemma proto2json_dict_unsupported_field_witness :
  label readings = LABEL_REPEATED /\ Py.iter (getattr ∅ readings) = Ok [].
Proof.
  apply (proto2json_dict_unsupported_field 1 [readings] ∅
           (VDict [("readings", VList [])]) readings).
  - reflexivity.
  - now left.
  - reflexivity.
  - discriminate.
Defined.

Lemma proto2json_dict_unset_fields_witness :
  Py.dict_get [("test", VStr "test")] "test" = Some (VStr "test") /\
  Py.dict_get [("notes", VList [])] "notes" = Some (VList []).
Proof.
  split.
  - destruct (proto2json_dict_unset_fields 0 [test] ∅
                [("test", VStr "test")] test) as [_ Hscalar].
    + apply (bool_decide_unpack _). vm_compute. exact I.
    + reflexivity.
    + now left.
    + reflexivity.
    + apply Hscalar; [discriminate | discriminate | eexists; reflexivity].
  - destruct (proto2json_dict_unset_fields 0 [notes] ∅
                [("notes", VList [])] notes) as [Hrepeated _].
    + apply (bool_decide_unpack _). vm_compute. exact I.
    + reflexivity.
    + now left.
    + reflexivity.
    + apply Hrepeated. reflexivity.
Defined.

Lemma proto2json_dict_depth_monotone_witness :
  proto2json_dict 7 (instance (new Embedded))
  = Ok (VDict [("testmessage", VDict [("test", VStr "test")])]).
Proof.
  apply (proto2json_dict_depth_monotone 2 7); [reflexivity | lia].
Defined.

Lemma encoded_embedded_message_not_decodable_witness :
  json2proto (VDict [("testmessage", VDict [("test", VStr "test")])]) Embedded
  <> Ok (new Embedded).
Proof.
  apply (encoded_embedded_message_not_decodable (R := Reference.runtime)
           1 Embedded ∅
           [("testmessage", VDict [("test", VStr "test")])]
           [("testmessage", VDict [("test", VStr "test")])] testmessage).
  - apply (bool_decide_unpack _). vm_compute. exact I.
  - reflexivity.
  - now left.
  - reflexivity.
  - discriminate.
  - reflexivity.
  - intros k. reflexivity.
Defined.

Lemma json_round_trip_member_witness :
  call Tfloat (VFloat tenth) = Returns (VFloat tenth) /\
  Py.dict_get [("count", VInt 0); ("level", VFloat tenth32)] "level"
  = Some (VFloat tenth32).
Proof.
  destruct (json_round_trip_member (R := Reference.runtime) 0 Gauge
              (VDict [("level", VFloat tenth)])
              [("level", VFloat tenth)]
              [("count", VInt 0); ("level", VFloat tenth32)]
              {| DESCRIPTOR := [level; count];
                 slots := {["level" := VFloat tenth32]} |}
              level (VFloat tenth))
    as [Hscalar _].
  - exact Gauge_unique_names.
  - reflexivity.
  - reflexivity.
  - reflexivity.
  - now left.
  - discriminate.
  - reflexivity.
  - destruct (Hscalar Tfloat) as (c & stored & Hc & Hst & Hget);
      [discriminate | reflexivity |].
    injection Hc as <-. vm_compute in Hst. injection Hst as <-.
    split; [reflexivity | exact Hget].
Defined.

Lemma json2proto_returns_iff_witness :
  (exists m, json2proto (VDict [("nodeid", VStr "host1")]) Node = Ok m) <->
  (forall f, In f (fields Node) ->
             decodable Node [("nodeid", VStr "host1")] f).
Proof.
  apply (json2proto_returns_iff (R := Reference.runtime)
           (VDict [("nodeid", VStr "host1")]) Node).
  - exact Node_unique_names.
  - reflexivity.
Defined.

(** With the checks of the runtime in [decodable], a number beyond the
    range of an int32 field is a member that does not serve its field. *)
Example Gauge_not_decodable :
  ~ decodable Gauge [("count", VInt 4294967296)] count.
Proof. intros (c & stored & [= <-] & Hst). discriminate Hst. Qed.

Lemma Embedded_encodable : encodable 2 (instance (new Embedded)).
Proof.
  unfold instance, new. simpl.
  intros f [<-|[]]. vm_compute. split; [reflexivity|].
  intros g [<-|[]]. vm_compute. exact I.
Qed.

Lemma proto2json_dict_returns_witness :
  exists t, proto2json_dict 2 (instance (new Embedded)) = Ok t.
Proof. apply proto2json_dict_returns. exact Embedded_encodable. Defined.

End MoreInstances.
